(** * Figma MCP server utilities (mcp-server/utils.py, mcp-server/server.py)

    A shallow embedding of the locator parser, the tree queries, the node
    summary and the colour conversion, with the properties the
    specification states about them.

    Conventions of the model.
    - Python [str] values are Rocq strings read as sequences of code
      points below 256 (Latin-1); on that range [str.strip], [str.lower]
      and the regular-expression classes act character by character.
    - Parsed JSON is the type [value]; a Python [dict] is an association
      list in insertion order, looked up from the front.
    - A raised exception is the [Raise] result. *)

From Stdlib Require Import List String Ascii ZArith NArith Lia Bool.
From Stdlib Require Import Floats DecimalString.
Import ListNotations.

Set Warnings "-inexact-float,-register-all".

Open Scope string_scope.

(* ===================================================================== *)
(** * Exceptions *)

Inductive exn : Set :=
| AttributeError
| TypeError
| ValueError
| KeyError
| OverflowError
| RecursionError.

Inductive result (A : Type) : Type :=
| Ok (a : A)
| Raise (e : exn).

Arguments Ok {A} a.
Arguments Raise {A} e.

Definition bind {A B : Type} (m : result A) (k : A -> result B) : result B :=
  match m with
  | Ok a => k a
  | Raise e => Raise e
  end.

Notation "x <- m ;; k" := (bind m (fun x => k))
  (at level 61, m at next level, right associativity).

(** A list comprehension whose body may raise: elements are evaluated from
    left to right and the first exception escapes. *)
Fixpoint mapM {A B : Type} (f : A -> result B) (l : list A) : result (list B) :=
  match l with
  | [] => Ok []
  | a :: l' => b <- f a ;; bs <- mapM f l' ;; Ok (b :: bs)
  end.

(* ===================================================================== *)
(** * Python string methods *)

Module PyStr.

Definition code (c : ascii) : N := N_of_ascii c.

Definition between (lo hi : N) (c : ascii) : bool :=
  ((lo <=? code c) && (code c <=? hi))%N.

(** [str.isspace] on one character: U+0009..U+000D, U+001C..U+0020,
    U+0085 and U+00A0 are the white-space code points below 256. *)
Definition isspace (c : ascii) : bool :=
  between 9 13 c || between 28 32 c || (code c =? 133)%N || (code c =? 160)%N.

(** [str.lower] on one character: A-Z, and U+00C0..U+00DE without the
    multiplication sign U+00D7, move up by 32. *)
Definition lower_char (c : ascii) : ascii :=
  if between 65 90 c || (between 192 222 c && negb (code c =? 215)%N)
  then ascii_of_N (code c + 32)
  else c.

Fixpoint lower (s : string) : string :=
  match s with
  | EmptyString => EmptyString
  | String c s' => String (lower_char c) (lower s')
  end.

Fixpoint lstrip (s : string) : string :=
  match s with
  | EmptyString => EmptyString
  | String c s' => if isspace c then lstrip s' else s
  end.

Fixpoint rstrip (s : string) : string :=
  match s with
  | EmptyString => EmptyString
  | String c s' =>
      match rstrip s' with
      | EmptyString => if isspace c then EmptyString else String c EmptyString
      | r => String c r
      end
  end.

(** [s.strip()] *)
Definition strip (s : string) : string := rstrip (lstrip s).

(** [s.startswith(p)] *)
Definition startswith (s p : string) : bool := String.prefix p s.

(** [s[:n]] *)
Definition slice_to (n : nat) (s : string) : string := String.substring 0 n s.

(** [bool(s)] *)
Definition truthy (s : string) : bool :=
  match s with
  | EmptyString => false
  | String _ _ => true
  end.

End PyStr.

(* ===================================================================== *)
(** * The regular expression of [extract_file_key]

    [re.search(r"figma\.com/(?:file|design|board|proto)/([a-zA-Z0-9]+)", s)]:
    the pattern is tried at every position from the left; the four route
    words start with different letters, so at most one alternative applies,
    and the greedy class at the end of the pattern takes the longest run. *)

Module Re.

(** [[a-zA-Z0-9]] *)
Definition is_alnum (c : ascii) : bool :=
  PyStr.between 97 122 c || PyStr.between 65 90 c || PyStr.between 48 57 c.

(** The longest prefix of [s] inside the class. *)
Fixpoint take_alnum (s : string) : string :=
  match s with
  | EmptyString => EmptyString
  | String c s' => if is_alnum c then String c (take_alnum s') else EmptyString
  end.

(** Match the literal [p] at the start of [s]; what follows it. *)
Fixpoint literal (p s : string) : option string :=
  match p with
  | EmptyString => Some s
  | String a p' =>
      match s with
      | EmptyString => None
      | String b s' => if Ascii.eqb a b then literal p' s' else None
      end
  end.

Definition routes : list string := ["file"; "design"; "board"; "proto"].

(** [(?:file|design|board|proto)], alternatives in order. *)
Fixpoint alternatives (ps : list string) (s : string) : option string :=
  match ps with
  | [] => None
  | p :: ps' =>
      match literal p s with
      | Some r => Some r
      | None => alternatives ps' s
      end
  end.

(** The whole pattern anchored at the start of [s]; the captured group. *)
Definition match_here (s : string) : option string :=
  match literal "figma.com/" s with
  | None => None
  | Some s1 =>
      match alternatives routes s1 with
      | None => None
      | Some s2 =>
          match literal "/" s2 with
          | None => None
          | Some s3 =>
              match take_alnum s3 with
              | EmptyString => None
              | k => Some k
              end
          end
      end
  end.

(** [re.search]: group 1 of the leftmost match. *)
Fixpoint search (s : string) : option string :=
  match match_here s with
  | Some k => Some k
  | None =>
      match s with
      | EmptyString => None
      | String _ s' => search s'
      end
  end.

End Re.

(* ===================================================================== *)
(** * Locator parser *)

Definition extract_file_key (file_url_or_key : string) : result string :=
  let trimmed := PyStr.strip file_url_or_key in
  if negb (PyStr.startswith trimmed "http") then Ok trimmed
  else
    match Re.search trimmed with
    | None => Raise ValueError
    | Some key => Ok key
    end.


(* ===================================================================== *)
(** * JSON values and Python's operations on them *)

Inductive value : Type :=
| VNone
| VBool (b : bool)
| VInt (z : Z)
| VFloat (f : float)
| VStr (s : string)
| VList (l : list value)
| VDict (d : list (string * value)).

(** A [dict] with string keys, in insertion order. *)
Definition dict (A : Type) : Type := list (string * A).

Fixpoint dict_get {A : Type} (k : string) (d : dict A) : option A :=
  match d with
  | [] => None
  | (k', v) :: d' => if String.eqb k' k then Some v else dict_get k d'
  end.

(** [d.get(k, default)] *)
Definition get_default {A : Type} (d : dict A) (k : string) (default : A) : A :=
  match dict_get k d with
  | Some v => v
  | None => default
  end.

(** [d.get(k)] *)
Definition get (d : dict value) (k : string) : value := get_default d k VNone.

(** [k in d] *)
Definition has_key {A : Type} (d : dict A) (k : string) : bool :=
  match dict_get k d with
  | Some _ => true
  | None => false
  end.

(** [d[k] = v]: an existing key keeps its place, a new key goes last. *)
Fixpoint dict_set {A : Type} (k : string) (v : A) (d : dict A) : dict A :=
  match d with
  | [] => [(k, v)]
  | (k', v') :: d' =>
      if String.eqb k' k then (k, v) :: d' else (k', v') :: dict_set k v d'
  end.

(** [d[k]] *)
Definition index (d : dict value) (k : string) : result value :=
  match dict_get k d with
  | Some v => Ok v
  | None => Raise KeyError
  end.

(** [bool(v)] *)
Definition truthy (v : value) : bool :=
  match v with
  | VNone => false
  | VBool b => b
  | VInt z => negb (z =? 0)%Z
  | VFloat f => negb (PrimFloat.eqb f 0%float)
  | VStr s => PyStr.truthy s
  | VList l => match l with [] => false | _ :: _ => true end
  | VDict d => match d with [] => false | _ :: _ => true end
  end.

(** [v == s] for a string [s]: only an equal string is equal to it. *)
Definition eq_str (v : value) (s : string) : bool :=
  match v with
  | VStr s' => String.eqb s' s
  | _ => false
  end.

(** The one-character strings a [str] yields when iterated. *)
Definition chars (s : string) : list value :=
  map (fun c => VStr (String c EmptyString)) (list_ascii_of_string s).

(** The keys a [dict] yields when iterated. *)
Definition keys (d : dict value) : list value :=
  map (fun kv => VStr (fst kv)) d.

(** [for x in v]: the elements in order; numbers, booleans and [None] are
    not iterable. *)
Definition py_iter (v : value) : result (list value) :=
  match v with
  | VList l => Ok l
  | VStr s => Ok (chars s)
  | VDict d => Ok (keys d)
  | _ => Raise TypeError
  end.

(** [reversed(v)] *)
Definition py_reversed (v : value) : result (list value) :=
  l <- py_iter v ;; Ok (rev l).

(** [len(v)] *)
Definition py_len (v : value) : result nat :=
  match v with
  | VList l => Ok (List.length l)
  | VStr s => Ok (String.length s)
  | VDict d => Ok (List.length d)
  | _ => Raise TypeError
  end.

(** [v[:n]]; a [dict] cannot be sliced. *)
Definition py_slice_to (n : nat) (v : value) : result value :=
  match v with
  | VList l => Ok (VList (firstn n l))
  | VStr s => Ok (VStr (PyStr.slice_to n s))
  | _ => Raise TypeError
  end.

(** [v.get(k, default)]: only a [dict] has the method. *)
Definition py_get (v : value) (k : string) (default : value) : result value :=
  match v with
  | VDict d => Ok (get_default d k default)
  | _ => Raise AttributeError
  end.

(* ===================================================================== *)
(** * Tree queries *)

(** [current_name and current_name.strip().lower() == normalized_name] *)
Definition name_matches (normalized_name : string) (current_name : value) : result bool :=
  if negb (truthy current_name) then Ok false
  else
    match current_name with
    | VStr s => Ok (String.eqb (PyStr.lower (PyStr.strip s)) normalized_name)
    | _ => Raise AttributeError
    end.

(** [for child in reversed(children): stack.append(child)] on a stack whose
    top is the head of the list. *)
Definition push_all (cs : list value) (stack : list value) : list value :=
  fold_left (fun st child => child :: st) cs stack.

(** The [while stack:] loop of [find_node_by_name]. [None] means the fuel
    ran out before the loop ended. *)
Fixpoint find_name_loop (normalized_name : string) (fuel : nat) (stack : list value)
  : option (result (option value)) :=
  match stack with
  | [] => Some (Ok None)
  | current :: stack' =>
      match fuel with
      | O => None
      | S fuel' =>
          if negb (truthy current) then find_name_loop normalized_name fuel' stack'
          else
            match current with
            | VDict d =>
                match name_matches normalized_name (get_default d "name" (VStr "")) with
                | Raise e => Some (Raise e)
                | Ok true => Some (Ok (Some current))
                | Ok false =>
                    match py_reversed (get_default d "children" (VList [])) with
                    | Raise e => Some (Raise e)
                    | Ok cs => find_name_loop normalized_name fuel' (push_all cs stack')
                    end
                end
            | _ => Some (Raise AttributeError)
            end
      end
  end.

Definition find_node_by_name (fuel : nat) (root : value) (name : string)
  : option (result (option value)) :=
  let normalized_name := PyStr.lower (PyStr.strip name) in
  find_name_loop normalized_name fuel [root].

(** [node_type in ("FRAME", "COMPONENT", "COMPONENT_SET")] *)
Definition is_container_type (node_type : value) : bool :=
  eq_str node_type "FRAME" || eq_str node_type "COMPONENT" || eq_str node_type "COMPONENT_SET".

(** The record appended for one matching node of a page. *)
Definition frame_entry (page node : dict value) : value :=
  VDict [ ("id", get_default node "id" (VStr ""));
          ("name", get_default node "name" (VStr "Unnamed"));
          ("type", get_default node "type" (VStr ""));
          ("page", get_default page "name" (VStr "Unnamed Page")) ].

(** The inner loop, [for node in page_children]. *)
Fixpoint scan_page (page : dict value) (page_children : list value) (frames : list value)
  : result (list value) :=
  match page_children with
  | [] => Ok frames
  | node :: rest =>
      match node with
      | VDict n =>
          let node_type := get_default n "type" (VStr "") in
          if is_container_type node_type
          then scan_page page rest (frames ++ [frame_entry page n])
          else scan_page page rest frames
      | _ => Raise AttributeError
      end
  end.

(** The outer loop, [for page in pages]. *)
Fixpoint scan_pages (pages : list value) (frames : list value) : result (list value) :=
  match pages with
  | [] => Ok frames
  | page :: rest =>
      match page with
      | VDict p =>
          page_children <- py_iter (get_default p "children" (VList [])) ;;
          frames' <- scan_page p page_children frames ;;
          scan_pages rest frames'
      | _ => Raise AttributeError
      end
  end.

Definition list_top_level_frames (root : value) : result (list value) :=
  pages <- py_get root "children" (VList []) ;;
  pages <- py_iter pages ;;
  scan_pages pages [].

(* ===================================================================== *)
(** * Node summary *)

(** The [absoluteBoundingBox] step of [summarize_node]. *)
Definition add_size (node summary : dict value) : result (dict value) :=
  if has_key node "absoluteBoundingBox" then
    box <- index node "absoluteBoundingBox" ;;
    width <- py_get box "width" VNone ;;
    height <- py_get box "height" VNone ;;
    Ok (dict_set "size" (VDict [("width", width); ("height", height)]) summary)
  else Ok summary.

(** The [characters] step of [summarize_node]. *)
Definition add_characters (node summary : dict value) : result (dict value) :=
  if eq_str (get node "type") "TEXT" then
    characters <- py_slice_to 100 (get_default node "characters" (VStr "")) ;;
    Ok (dict_set "characters" characters summary)
  else Ok summary.

(** [summarize_node(node, include_children=False)]: the body of the function
    up to the [if include_children:] block. *)
Definition summarize_node_flat (node : value) : result (dict value) :=
  match node with
  | VDict d =>
      let summary := [("id", get d "id"); ("name", get d "name"); ("type", get d "type")] in
      summary <- add_size d summary ;;
      add_characters d summary
  | _ => Raise AttributeError
  end.

(** [summarize_node]. The recursive call always passes
    [include_children=False], so the recursion is one level deep and is
    written out through [summarize_node_flat]. *)
Definition summarize_node (node : value) (include_children : bool) : result value :=
  summary <- summarize_node_flat node ;;
  if include_children then
    children <- py_get node "children" (VList []) ;;
    n <- py_len children ;;
    let summary := dict_set "childCount" (VInt (Z.of_nat n)) summary in
    first <- py_slice_to 10 children ;;
    first <- py_iter first ;;
    summaries <- mapM (fun child => s <- summarize_node_flat child ;; Ok (VDict s)) first ;;
    let summary := dict_set "children" (VList summaries) summary in
    if (10 <? n)%nat
    then Ok (VDict (dict_set "childrenTruncated" (VBool true) summary))
    else Ok (VDict summary)
  else Ok (VDict summary).

(* ===================================================================== *)
(** * Style extraction *)

(** [if src in node: styles[dst] = node[src]] *)
Definition copy_key (src dst : string) (node styles : dict value) : dict value :=
  match dict_get src node with
  | Some v => dict_set dst v styles
  | None => styles
  end.

Definition get_node_styles (node : dict value) : dict value :=
  let styles := [] in
  let styles := copy_key "fills" "fills" node styles in
  let styles := copy_key "strokes" "strokes" node styles in
  let styles := copy_key "effects" "effects" node styles in
  let styles := copy_key "style" "textStyle" node styles in
  let styles := copy_key "absoluteBoundingBox" "boundingBox" node styles in
  if has_key node "layoutMode" then
    dict_set "layout"
      (VDict [ ("mode", get node "layoutMode");
               ("itemSpacing", get node "itemSpacing");
               ("paddingLeft", get node "paddingLeft");
               ("paddingRight", get node "paddingRight");
               ("paddingTop", get node "paddingTop");
               ("paddingBottom", get node "paddingBottom") ])
      styles
  else styles.

(* ===================================================================== *)
(** * Colour conversion

    Channels are binary64 floats, as the signature [dict[str, float]] says;
    the integer defaults [0] and [255] of the source enter the float
    product as [0.0] and [255.0]. *)

Module Num.

Open Scope Z_scope.

(** The integer nearest to [m * 2^e] for [0 <= m], a tie going to the even
    neighbour. *)
Definition round_half_even (m e : Z) : Z :=
  if 0 <=? e then m * 2 ^ e
  else
    let d := 2 ^ (- e) in
    let q := m / d in
    let r := m mod d in
    if 2 * r <? d then q
    else if d <? 2 * r then q + 1
    else if Z.even q then q else q + 1.

(** [round(x)] for a float [x]: an [int], or an exception when [x] is not
    finite. *)
Definition py_round (x : float) : result Z :=
  match Prim2SF x with
  | S754_zero _ => Ok 0
  | S754_finite s m e =>
      let n := round_half_even (Zpos m) e in
      Ok (if s then - n else n)
  | S754_infinity _ => Raise OverflowError
  | S754_nan => Raise ValueError
  end.

(** [str(n)] for an [int]. *)
Definition str_of_int (n : Z) : string := NilZero.string_of_int (Z.to_int n).

Definition digit (n : Z) : ascii := ascii_of_N (48 + Z.to_N n).

(** The three digits of [0 <= n < 1000]. *)
Definition digits3 (n : Z) : string :=
  String (digit (n / 100)) (String (digit (n / 10 mod 10)) (String (digit (n mod 10)) EmptyString)).

(** [f"{x:.3f}"]: the decimal expansion of the exact value of [x], correctly
    rounded to three places (a tie goes to the even digit). *)
Definition format_3f (x : float) : string :=
  match Prim2SF x with
  | S754_nan => "nan"
  | S754_infinity s => if s then "-inf" else "inf"
  | S754_zero s => (if s then "-" else "") ++ "0.000"
  | S754_finite s m e =>
      let n := round_half_even (Zpos m * 1000) e in
      (if s then "-" else "") ++ str_of_int (n / 1000) ++ "." ++ digits3 (n mod 1000)
  end.

End Num.

Definition css_rgb (r g b : Z) : string :=
  "rgb(" ++ Num.str_of_int r ++ ", " ++ Num.str_of_int g ++ ", " ++ Num.str_of_int b ++ ")".

Definition css_rgba (r g b : Z) (a : float) : string :=
  "rgba(" ++ Num.str_of_int r ++ ", " ++ Num.str_of_int g ++ ", " ++ Num.str_of_int b
          ++ ", " ++ Num.format_3f a ++ ")".

Definition figma_color_to_css (color : option (dict float)) (opacity : float)
  : result (option string) :=
  match color with
  | None => Ok None
  | Some [] => Ok None
  | Some c =>
      r <- Num.py_round (get_default c "r" 0 * 255)%float ;;
      g <- Num.py_round (get_default c "g" 0 * 255)%float ;;
      b <- Num.py_round (get_default c "b" 0 * 255)%float ;;
      let a := (get_default c "a" 1 * opacity)%float in
      if (0.999 <=? a)%float then Ok (Some (css_rgb r g b))
      else Ok (Some (css_rgba r g b a))
  end.

(* ===================================================================== *)
(** * The name lookup tool (server.py)

    [find_frame_by_name] without its serialisation to text: the fetch is the
    collaborator [get_file], and the result is the record handed to
    [json.dumps]. The lookup only returns a value that passed its
    [if not current] test, so [if not node] holds exactly for [None]; a
    returned node is a record, the one case [get_node_styles] is given. *)

(** [[f["name"] for f in frames]] *)
Definition frame_names (frames : list value) : result (list value) :=
  mapM (fun f => match f with
                 | VDict fd => index fd "name"
                 | _ => Raise TypeError
                 end) frames.

Definition not_found_reply (name : string) (names : list value) : value :=
  VDict [ ("error", VStr ("Frame '" ++ name ++ "' not found"));
          ("availableFrames", VList names);
          ("hint", VStr "Try one of the available frame names listed above") ].

Definition find_frame_by_name (fuel : nat) (get_file : string -> result value)
    (file_url_or_key name : string) : option (result value) :=
  match (file_key <- extract_file_key file_url_or_key ;;
         fetched <- get_file file_key ;;
         py_get fetched "document" (VDict [])) with
  | Raise e => Some (Raise e)
  | Ok document =>
      match find_node_by_name fuel document name with
      | None => None
      | Some (Raise e) => Some (Raise e)
      | Some (Ok None) =>
          Some (frames <- list_top_level_frames document ;;
                names <- frame_names (firstn 20 frames) ;;
                Ok (not_found_reply name names))
      | Some (Ok (Some node)) =>
          Some (summary <- summarize_node node true ;;
                styles <- match node with
                          | VDict d => Ok (VDict (get_node_styles d))
                          | _ => Raise TypeError
                          end ;;
                Ok (VDict [("found", VBool true); ("node", summary); ("styles", styles)]))
      end
  end.

(* ===================================================================== *)
(** * Vocabulary of the properties *)

(** The reference string [https://host/P/K/rest]. *)
Definition locator (host P K rest : string) : string :=
  "https://" ++ host ++ "/" ++ P ++ "/" ++ K ++ "/" ++ rest.

Fixpoint all_chars (p : ascii -> bool) (s : string) : bool :=
  match s with
  | EmptyString => true
  | String c s' => p c && all_chars p s'
  end.

(** A document key: one or more ASCII letters and digits. *)
Definition valid_key (K : string) : bool :=
  PyStr.truthy K && all_chars Re.is_alnum K.

Definition not_slash (c : ascii) : bool := negb (Ascii.eqb c "/").

(** The number of characters before the first slash. *)
Fixpoint before_slash (s : string) : nat :=
  match s with
  | EmptyString => O
  | String c s' => if not_slash c then S (before_slash s') else O
  end.

Fixpoint last_char (c : ascii) (s : string) : ascii :=
  match s with
  | EmptyString => c
  | String c' s' => last_char c' s'
  end.

(** No white space at either end. *)
Definition no_outer_space (s : string) : bool :=
  match s with
  | EmptyString => true
  | String c s' => negb (PyStr.isspace c) && negb (PyStr.isspace (last_char c s'))
  end.

(** The float is zero or a finite number. *)
Definition finite (x : float) : bool :=
  match Prim2SF x with
  | S754_zero _ => true
  | S754_finite _ _ _ => true
  | _ => false
  end.

(** [n] is an integer nearest to the dyadic number [m * 2^e], and the even
    one when [m * 2^e] lies half way between two integers. For a negative
    exponent the distance is measured in units of [2^e]. *)
Definition nearest_even (m e n : Z) : Prop :=
  (0 <= e -> n = m * 2 ^ e)%Z /\
  (e < 0 -> 2 * Z.abs (n * 2 ^ (- e) - m) <= 2 ^ (- e) /\
            (2 * Z.abs (n * 2 ^ (- e) - m) = 2 ^ (- e) -> Z.even n = true))%Z.

(** [n] is [round(x)] read on the exact value of the float [x]. *)
Definition rounds_to (x : float) (n : Z) : Prop :=
  match Prim2SF x with
  | S754_zero _ => n = 0%Z
  | S754_finite s m e => nearest_even (Zpos m) e (if s then - n else n)%Z
  | _ => False
  end.

Definition is_digit (c : ascii) : bool := PyStr.between 48 57 c.

(** The rounding rule in the words of the specification: the integer
    nearest to [m * 2^e] for [0 <= m], a tie going away from zero. *)
Definition round_half_away (m e : Z) : Z :=
  if (0 <=? e)%Z then (m * 2 ^ e)%Z
  else
    let d := (2 ^ (- e))%Z in
    if (2 * (m mod d) <? d)%Z then (m / d)%Z else (m / d + 1)%Z.

Definition py_round_half_away (x : float) : result Z :=
  match Prim2SF x with
  | S754_zero _ => Ok 0%Z
  | S754_finite s m e =>
      let n := round_half_away (Zpos m) e in
      Ok (if s then - n else n)%Z
  | S754_infinity _ => Raise OverflowError
  | S754_nan => Raise ValueError
  end.

(** The colour conversion as the specification words it, with halves
    rounded away from zero; to be compared with [figma_color_to_css]. *)
Definition figma_color_to_css_half_away (color : option (dict float)) (opacity : float)
  : result (option string) :=
  match color with
  | None => Ok None
  | Some [] => Ok None
  | Some c =>
      r <- py_round_half_away (get_default c "r" 0 * 255)%float ;;
      g <- py_round_half_away (get_default c "g" 0 * 255)%float ;;
      b <- py_round_half_away (get_default c "b" 0 * 255)%float ;;
      let a := (get_default c "a" 1 * opacity)%float in
      if (0.999 <=? a)%float then Ok (Some (css_rgb r g b))
      else Ok (Some (css_rgba r g b a))
  end.

(** [color.get(k, 0) * 255], the value handed to [round]. *)
Definition scaled (c : dict float) (k : string) : float :=
  (get_default c k 0 * 255)%float.

(** [color.get("a", 1.0) * opacity] *)
Definition effective_alpha (c : dict float) (opacity : float) : float :=
  (get_default c "a" 1 * opacity)%float.

(** A colour whose red channel scales to exactly 2.5. *)
Definition tie_color : dict float :=
  [("r", 0.00980392156862745%float); ("g", 0%float); ("b", 0%float); ("a", 1%float)].

(** Half red at 50% alpha. *)
Definition half_red : dict float :=
  [("r", 0.5%float); ("g", 0%float); ("b", 0%float); ("a", 0.5%float)].

(** The conversion of a non-empty record, as a function of its four
    channel values. *)
Definition css_of_channels (r g b a opacity : float) : result (option string) :=
  r' <- Num.py_round (r * 255)%float ;;
  g' <- Num.py_round (g * 255)%float ;;
  b' <- Num.py_round (b * 255)%float ;;
  if (0.999 <=? a * opacity)%float then Ok (Some (css_rgb r' g' b'))
  else Ok (Some (css_rgba r' g' b' (a * opacity)%float)).

(* --------------------------------------------------------------------- *)
(** ** Document trees *)

(** The children of a node: the list under [children], none without it. *)
Definition children_of (d : dict value) : list value :=
  match dict_get "children" d with
  | Some (VList l) => l
  | _ => []
  end.

Definition is_str (v : value) : bool :=
  match v with
  | VStr _ => true
  | _ => false
  end.

Definition is_dict (v : value) : bool :=
  match v with
  | VDict _ => true
  | _ => false
  end.

(** A node of a document as the remote API delivers it: a record whose
    [name] and [characters], when present, are strings, whose
    [absoluteBoundingBox], when present, is a record, and whose [children],
    when present, is a list of nodes. Every other field is free. *)
Fixpoint is_node (v : value) : bool :=
  match v with
  | VDict d =>
      (fix fields (d : dict value) : bool :=
         match d with
         | [] => true
         | (k, x) :: d' =>
             (if String.eqb k "children" then
                match x with
                | VList l =>
                    (fix each (l : list value) : bool :=
                       match l with
                       | [] => true
                       | c :: l' => is_node c && each l'
                       end) l
                | _ => false
                end
              else if String.eqb k "name" then is_str x
              else if String.eqb k "characters" then is_str x
              else if String.eqb k "absoluteBoundingBox" then is_dict x
              else true)
             && fields d'
         end) d
  | _ => false
  end.

(** What [is_node] asks of one field. *)
Definition field_ok (k : string) (x : value) : bool :=
  if String.eqb k "children" then
    match x with
    | VList l => forallb is_node l
    | _ => false
    end
  else if String.eqb k "name" then is_str x
  else if String.eqb k "characters" then is_str x
  else if String.eqb k "absoluteBoundingBox" then is_dict x
  else true.

(** Document order: a node, then the subtrees of its children from left to
    right. *)
Fixpoint preorder (v : value) : list value :=
  match v with
  | VDict d =>
      v :: (fix fields (d : dict value) : list value :=
              match d with
              | [] => []
              | (k, x) :: d' =>
                  if String.eqb k "children" then
                    match x with
                    | VList l =>
                        (fix each (l : list value) : list value :=
                           match l with
                           | [] => []
                           | c :: l' => (preorder c ++ each l')%list
                           end) l
                    | _ => []
                    end
                  else fields d'
              end) d
  | _ => []
  end.

Definition node_count (v : value) : nat := List.length (preorder v).

(** The test the lookup applies to a node: it has a non-empty name whose
    trimmed, lower-cased form is the normalised query. *)
Definition name_is (normalized_name : string) (v : value) : bool :=
  match v with
  | VDict d =>
      match dict_get "name" d with
      | Some (VStr s) =>
          PyStr.truthy s && String.eqb (PyStr.lower (PyStr.strip s)) normalized_name
      | _ => false
      end
  | _ => false
  end.

(** The test in the words of the specification: the name, trimmed and
    lower-cased, equals the normalised query. *)
Definition name_equals (normalized_name : string) (v : value) : bool :=
  match v with
  | VDict d =>
      match dict_get "name" d with
      | Some (VStr s) => String.eqb (PyStr.lower (PyStr.strip s)) normalized_name
      | _ => false
      end
  | _ => false
  end.

(** Find-by-name as the specification words it: the first node in document
    order whose normalised name equals the normalised query. *)
Definition first_by_name (root : value) (name : string) : option value :=
  List.find (name_equals (PyStr.lower (PyStr.strip name))) (preorder root).

(** The name of a node is a non-empty string of white space only. *)
Definition blank_name (v : value) : bool :=
  match v with
  | VDict d =>
      match dict_get "name" d with
      | Some (VStr s) => PyStr.truthy s && String.eqb (PyStr.strip s) EmptyString
      | _ => false
      end
  | _ => false
  end.

(** A node whose name is the empty string, and one named with two spaces. *)
Definition unnamed_node : value := VDict [("id", VStr "0:1"); ("name", VStr "")].
Definition blank_node : value := VDict [("id", VStr "0:1"); ("name", VStr "  ")].

(** A document whose only frame is named ["  Header  "]. *)
Definition header_doc : value :=
  VDict [ ("id", VStr "0:0"); ("name", VStr "Document"); ("type", VStr "DOCUMENT");
          ("children", VList [
             VDict [ ("id", VStr "0:1"); ("name", VStr "Page 1"); ("type", VStr "CANVAS");
                     ("children", VList [
                        VDict [ ("id", VStr "1:2"); ("name", VStr "  Header  ");
                                ("type", VStr "FRAME") ] ]) ] ]) ].

(* --------------------------------------------------------------------- *)
(** ** Top-level containers *)

(** The record of one child of a page, when its type is frame, component
    or component-set. *)
Definition container_entry (page : dict value) (node : value) : list value :=
  match node with
  | VDict n =>
      if is_container_type (get_default n "type" (VStr ""))
      then [frame_entry page n]
      else []
  | _ => []
  end.

(** The records of one page: those of its direct children, in order. *)
Definition page_frames (page : value) : list value :=
  match page with
  | VDict p => flat_map (container_entry p) (children_of p)
  | _ => []
  end.

(** The records of a document: those of the root's direct children. *)
Definition top_level_frames (root : value) : list value :=
  match root with
  | VDict r => flat_map page_frames (children_of r)
  | _ => []
  end.

(** The node without its [children] field. *)
Definition without_children (v : value) : value :=
  match v with
  | VDict d => VDict (filter (fun kv => negb (String.eqb (fst kv) "children")) d)
  | _ => v
  end.

(** [f] applied to the elements of a list value. *)
Definition map_list (f : value -> value) (x : value) : value :=
  match x with
  | VList l => VList (map f l)
  | _ => x
  end.

(** [f] applied to every child of the node. *)
Definition map_children (f : value -> value) (v : value) : value :=
  match v with
  | VDict d =>
      VDict (map (fun kv => if String.eqb (fst kv) "children"
                            then (fst kv, map_list f (snd kv))
                            else kv) d)
  | _ => v
  end.

(** The tree cut below the children of the pages: every node two levels
    below the root loses its children. *)
Definition cut_below_frames (root : value) : value :=
  map_children (map_children without_children) root.

(** Document, page, frame [1:2], and inside it the frame [1:3]. *)
Definition nested_doc : value :=
  VDict [ ("id", VStr "0:0"); ("name", VStr "Document"); ("type", VStr "DOCUMENT");
          ("children", VList [
             VDict [ ("id", VStr "0:1"); ("name", VStr "Page 1"); ("type", VStr "CANVAS");
                     ("children", VList [
                        VDict [ ("id", VStr "1:2"); ("name", VStr "Outer");
                                ("type", VStr "FRAME");
                                ("children", VList [
                                   VDict [ ("id", VStr "1:3"); ("name", VStr "Inner");
                                           ("type", VStr "FRAME") ] ]) ] ]) ] ]) ].

(* --------------------------------------------------------------------- *)
(** ** Name lookup tool *)

(** The [name] field of a record of the enumeration. *)
Definition entry_name (e : value) : value :=
  match e with
  | VDict fd => get fd "name"
  | _ => VNone
  end.

Definition decimal (n : nat) : string := NilZero.string_of_uint (Nat.to_uint n).

(** The frame numbered [i]. *)
Definition numbered_frame (i : nat) : value :=
  VDict [ ("id", VStr ("1:" ++ decimal i)); ("name", VStr ("Frame " ++ decimal i));
          ("type", VStr "FRAME") ].

(** A file whose single page holds the frames 1 to 30. *)
Definition thirty_frames_doc : value :=
  VDict [ ("id", VStr "0:0"); ("name", VStr "Document"); ("type", VStr "DOCUMENT");
          ("children", VList [
             VDict [ ("id", VStr "0:1"); ("name", VStr "Page 1"); ("type", VStr "CANVAS");
                     ("children", VList (map numbered_frame (seq 1 30))) ] ]) ].

Definition thirty_frames_file : dict value :=
  [ ("name", VStr "Thirty"); ("document", thirty_frames_doc) ].

(* --------------------------------------------------------------------- *)
(** ** Summaries *)

(** The text content of a node; empty without [characters]. *)
Definition text_of (d : dict value) : string :=
  match dict_get "characters" d with
  | Some (VStr s) => s
  | _ => EmptyString
  end.

(** A frame with the children 1 to [n]. *)
Definition frame_with (n : nat) : dict value :=
  [ ("id", VStr "9:0"); ("name", VStr "Container"); ("type", VStr "FRAME");
    ("children", VList (map numbered_frame (seq 1 n))) ].

Fixpoint repeat_string (s : string) (n : nat) : string :=
  match n with
  | O => EmptyString
  | S n' => s ++ repeat_string s n'
  end.

(** A text node with 150 characters of content. *)
Definition long_text : dict value :=
  [ ("id", VStr "7:1"); ("name", VStr "Paragraph"); ("type", VStr "TEXT");
    ("characters", VStr (repeat_string "0123456789abcde" 10)) ].

(* ===================================================================== *)
(** * Node identifier of a reference string

    [re.search(r"node-id=([^&]+)", url)]: the literal, then the longest run
    of characters other than [&], which must not be empty. *)

Definition not_amp (c : ascii) : bool := negb (Ascii.eqb c "&").

(** The longest prefix of [s] whose characters satisfy [p]. *)
Fixpoint take_while (p : ascii -> bool) (s : string) : string :=
  match s with
  | EmptyString => EmptyString
  | String c s' => if p c then String c (take_while p s') else EmptyString
  end.

Definition match_node_id_here (s : string) : option string :=
  match Re.literal "node-id=" s with
  | None => None
  | Some r =>
      match take_while not_amp r with
      | EmptyString => None
      | v => Some v
      end
  end.

Fixpoint search_node_id (s : string) : option string :=
  match match_node_id_here s with
  | Some v => Some v
  | None =>
      match s with
      | EmptyString => None
      | String _ s' => search_node_id s'
      end
  end.

(** [s.replace("-", ":")] *)
Fixpoint dash_to_colon (s : string) : string :=
  match s with
  | EmptyString => EmptyString
  | String c s' => String (if Ascii.eqb c "-" then ":"%char else c) (dash_to_colon s')
  end.

(** [extract_node_id]; [None] is Python's [None]. *)
Definition extract_node_id (url : string) : option string :=
  match search_node_id url with
  | None => None
  | Some v => Some (dash_to_colon v)
  end.

(* ===================================================================== *)
(** * Find by identifier *)

(** The [while stack:] loop of [find_node_by_id], on a stack whose top is
    the head of the list. [None] means the fuel ran out. *)
Fixpoint find_id_loop (node_id : string) (fuel : nat) (stack : list value)
  : option (result (option value)) :=
  match stack with
  | [] => Some (Ok None)
  | current :: stack' =>
      match fuel with
      | O => None
      | S fuel' =>
          if negb (truthy current) then find_id_loop node_id fuel' stack'
          else
            match current with
            | VDict d =>
                if eq_str (get d "id") node_id then Some (Ok (Some current))
                else
                  match py_reversed (get_default d "children" (VList [])) with
                  | Raise e => Some (Raise e)
                  | Ok cs => find_id_loop node_id fuel' (push_all cs stack')
                  end
            | _ => Some (Raise AttributeError)
            end
      end
  end.

Definition find_node_by_id (fuel : nat) (root : value) (node_id : string)
  : option (result (option value)) :=
  find_id_loop node_id fuel [root].

(* ===================================================================== *)
(** * All components *)

(** [node_type in ("COMPONENT", "COMPONENT_SET", "INSTANCE")] *)
Definition is_component_type (node_type : value) : bool :=
  eq_str node_type "COMPONENT" || eq_str node_type "COMPONENT_SET"
  || eq_str node_type "INSTANCE".

(** The record appended for one matching node. *)
Definition component_entry (node : dict value) : value :=
  VDict [ ("id", get_default node "id" (VStr ""));
          ("name", get_default node "name" (VStr "Unnamed"));
          ("type", get_default node "type" (VStr "")) ].

(** The inner function [walk] of [list_all_components], with the list
    [components] it appends to passed along. [limit] is the number of
    nested calls of [walk] the interpreter still allows: a call made when
    none is left raises [RecursionError], which nothing catches. *)
Fixpoint walk (limit : nat) (node : value) (components : list value)
  : result (list value) :=
  match limit with
  | O => Raise RecursionError
  | S limit' =>
      match node with
      | VDict d =>
          let node_type := get_default d "type" (VStr "") in
          let components :=
            if is_component_type node_type
            then (components ++ [component_entry d])%list
            else components in
          match py_iter (get_default d "children" (VList [])) with
          | Raise e => Raise e
          | Ok children =>
              (fix each (cs : list value) (components : list value)
                 : result (list value) :=
                 match cs with
                 | [] => Ok components
                 | child :: cs' =>
                     match walk limit' child components with
                     | Ok components' => each cs' components'
                     | Raise e => Raise e
                     end
                 end) children components
          end
      | _ => Raise AttributeError
      end
  end.

Definition list_all_components (limit : nat) (root : value) : result (list value) :=
  walk limit root [].

(* ===================================================================== *)
(** * Two more tools of server.py *)

(** The text of the [ValueError] of [extract_file_key], its only one. *)
Definition invalid_url_message : string :=
  "Invalid Figma URL. Expected format like https://www.figma.com/design/<FILE_KEY>/... or /file/<FILE_KEY>/...".

Definition optional_str (o : option string) : value :=
  match o with
  | Some s => VStr s
  | None => VNone
  end.

(** [parse_figma_url] without its serialisation to text; the [except
    ValueError] clause turns the parser's exception into an error record. *)
Definition parse_figma_url (url : string) : result value :=
  match extract_file_key url with
  | Ok file_key =>
      let node_id := extract_node_id url in
      Ok (VDict [ ("fileKey", VStr file_key);
                  ("nodeId", optional_str node_id);
                  ("url", VStr url) ])
  | Raise ValueError => Ok (VDict [("error", VStr invalid_url_message)])
  | Raise e => Raise e
  end.

Definition node_not_found (node_id : string) : value :=
  VDict [("error", VStr ("Node " ++ node_id ++ " not found"))].

(** [get_figma_node] without its serialisation to text; the fetch is the
    collaborator [get_file_nodes]. *)
Definition get_figma_node (get_file_nodes : string -> list string -> result value)
    (file_url_or_key node_id : string) : result value :=
  file_key <- extract_file_key file_url_or_key ;;
  let normalized_id := dash_to_colon node_id in
  fetched <- get_file_nodes file_key [normalized_id] ;;
  nodes <- py_get fetched "nodes" (VDict []) ;;
  node_data <- py_get nodes normalized_id VNone ;;
  if negb (truthy node_data) then Ok (node_not_found node_id)
  else
    document <- py_get node_data "document" (VDict []) ;;
    summary <- summarize_node document true ;;
    Ok (VDict [("node", summary)]).

(* ===================================================================== *)
(** * Vocabulary of the further properties *)

Definition not_dash (c : ascii) : bool := negb (Ascii.eqb c "-").
Definition not_equals (c : ascii) : bool := negb (Ascii.eqb c "=").

(** The number of characters before the first [=]. *)
Fixpoint before_equals (s : string) : nat :=
  match s with
  | EmptyString => O
  | String c s' => if not_equals c then S (before_equals s') else O
  end.

(** The rest of the reference string ends the parameter: nothing, or an
    ampersand and more. *)
Definition ends_value (tail : string) : bool :=
  match tail with
  | EmptyString => true
  | String c _ => Ascii.eqb c "&"
  end.

(** The test of the identifier lookup on a node. *)
Definition id_is (node_id : string) (v : value) : bool :=
  match v with
  | VDict d => eq_str (get d "id") node_id
  | _ => false
  end.

(** The records of the component-like nodes of a list of nodes, in order. *)
Definition components_of (nodes : list value) : list value :=
  flat_map (fun v => match v with
                     | VDict d =>
                         if is_component_type (get_default d "type" (VStr ""))
                         then [component_entry d]
                         else []
                     | _ => []
                     end) nodes.

(** A record of the top-level enumeration without its [page] field. *)
Definition drop_page (e : value) : value :=
  match e with
  | VDict fd => VDict (filter (fun kv => negb (String.eqb (fst kv) "page")) fd)
  | _ => e
  end.

(** The layout group [get_node_styles] assembles. *)
Definition layout_group (node : dict value) : value :=
  VDict [ ("mode", get node "layoutMode");
          ("itemSpacing", get node "itemSpacing");
          ("paddingLeft", get node "paddingLeft");
          ("paddingRight", get node "paddingRight");
          ("paddingTop", get node "paddingTop");
          ("paddingBottom", get node "paddingBottom") ].

(** The size group [summarize_node] assembles from a bounding box. *)
Definition size_group (box : dict value) : value :=
  VDict [("width", get box "width"); ("height", get box "height")].

(** The loop over the children inside [walk], for a given way [w] to walk
    one child. *)
Definition walk_each (w : value -> list value -> result (list value))
  : list value -> list value -> result (list value) :=
  fix each (cs : list value) (components : list value) :=
    match cs with
    | [] => Ok components
    | child :: cs' =>
        match w child components with
        | Ok components' => each cs' components'
        | Raise e => Raise e
        end
    end.

(** The depth of a tree: 1 for a node without children. *)
Fixpoint depth (v : value) : nat :=
  match v with
  | VDict d =>
      S ((fix fields (d : dict value) : nat :=
            match d with
            | [] => O
            | (k, x) :: d' =>
                if String.eqb k "children" then
                  match x with
                  | VList l =>
                      (fix each (l : list value) : nat :=
                         match l with
                         | [] => O
                         | c :: l' => Nat.max (depth c) (each l')
                         end) l
                  | _ => O
                  end
                else fields d'
            end) d)
  | _ => O
  end.

(** The deepest of a list of trees. *)
Definition max_depth (l : list value) : nat :=
  fold_right (fun c m => Nat.max (depth c) m) O l.

(** A document with two pages; the first holds a frame with a frame inside,
    a text, a component, a component set, a rectangle and an instance. *)
Definition mixed_doc : value :=
  VDict [ ("id", VStr "0:0"); ("name", VStr "Document"); ("type", VStr "DOCUMENT");
          ("children", VList [
             VDict [ ("id", VStr "0:1"); ("name", VStr "Page 1"); ("type", VStr "CANVAS");
                     ("children", VList [
                        VDict [ ("id", VStr "1:2"); ("name", VStr "Outer");
                                ("type", VStr "FRAME");
                                ("children", VList [
                                   VDict [ ("id", VStr "1:3"); ("name", VStr "Inner");
                                           ("type", VStr "FRAME") ] ]) ];
                        VDict [ ("id", VStr "1:4"); ("name", VStr "Title");
                                ("type", VStr "TEXT"); ("characters", VStr "Hello") ];
                        VDict [ ("id", VStr "1:5"); ("name", VStr "Button");
                                ("type", VStr "COMPONENT") ];
                        VDict [ ("id", VStr "1:6"); ("name", VStr "Buttons");
                                ("type", VStr "COMPONENT_SET") ];
                        VDict [ ("id", VStr "1:7"); ("name", VStr "Box");
                                ("type", VStr "RECTANGLE") ];
                        VDict [ ("id", VStr "1:8"); ("name", VStr "Button");
                                ("type", VStr "INSTANCE") ] ]) ];
             VDict [ ("id", VStr "0:2"); ("name", VStr "Page 2"); ("type", VStr "CANVAS");
                     ("children", VList [
                        VDict [ ("id", VStr "3:1"); ("name", VStr "Home");
                                ("type", VStr "FRAME") ] ]) ] ]) ].

(* ===================================================================== *)
(** * Properties of the string primitives *)

Lemma string_app_assoc (a b c : string) : (a ++ b) ++ c = a ++ (b ++ c).
Proof.
  induction a as [|x a IH]; simpl; [reflexivity|].
  now rewrite IH.
Qed.

Lemma lstrip_nonspace (c : ascii) (s : string) :
  PyStr.isspace c = false -> PyStr.lstrip (String c s) = String c s.
Proof. intros H. simpl. now rewrite H. Qed.

Lemma rstrip_cons_nonspace (c : ascii) (s : string) :
  PyStr.isspace c = false -> PyStr.rstrip (String c s) = String c (PyStr.rstrip s).
Proof.
  intros H. simpl. rewrite H. now destruct (PyStr.rstrip s).
Qed.

Lemma rstrip_cons_nonempty (c : ascii) (s : string) :
  PyStr.rstrip s <> EmptyString -> PyStr.rstrip (String c s) = String c (PyStr.rstrip s).
Proof.
  intros H. simpl. destruct (PyStr.rstrip s); [congruence | reflexivity].
Qed.

Lemma rstrip_app_nonspace (a : string) (c : ascii) (s : string) :
  PyStr.isspace c = false ->
  PyStr.rstrip (a ++ String c s) = a ++ String c (PyStr.rstrip s).
Proof.
  intros H. induction a as [|x a IH]; simpl append.
  - now apply rstrip_cons_nonspace.
  - rewrite rstrip_cons_nonempty; rewrite IH; [reflexivity|].
    destruct a; discriminate.
Qed.

Lemma rstrip_last_nonspace (c : ascii) (s : string) :
  PyStr.isspace (last_char c s) = false ->
  PyStr.rstrip (String c s) = String c s.
Proof.
  revert c. induction s as [|c' s IH]; intros c H.
  - simpl in *. now rewrite H.
  - rewrite rstrip_cons_nonempty; rewrite (IH c' H); [reflexivity | discriminate].
Qed.

(** A string without white space at its ends is its own [strip]. *)
Lemma strip_no_outer_space (s : string) :
  no_outer_space s = true -> PyStr.strip s = s.
Proof.
  destruct s as [|c s]; [reflexivity|].
  unfold no_outer_space. rewrite andb_true_iff, !negb_true_iff.
  intros [Hc Hl]. unfold PyStr.strip.
  rewrite lstrip_nonspace by assumption.
  now apply rstrip_last_nonspace.
Qed.

(* ===================================================================== *)
(** * Properties of the pattern search *)

Lemma literal_app (p s : string) : Re.literal p (p ++ s) = Some s.
Proof.
  induction p as [|a p IH]; simpl; [reflexivity|].
  now rewrite Ascii.eqb_refl.
Qed.

Lemma literal_Some (p s r : string) : Re.literal p s = Some r -> s = p ++ r.
Proof.
  revert s. induction p as [|a p IH]; intros s H; simpl in *.
  - congruence.
  - destruct s as [|b s]; [discriminate|].
    destruct (Ascii.eqb a b) eqn:E; [|discriminate].
    apply Ascii.eqb_eq in E. subst b. f_equal. now apply IH.
Qed.

Lemma before_slash_app (h t : string) :
  all_chars not_slash h = true ->
  before_slash (h ++ t) = (String.length h + before_slash t)%nat.
Proof.
  induction h as [|c h IH]; simpl; [reflexivity|].
  rewrite andb_true_iff. intros [Hc Hh]. rewrite Hc. now rewrite IH.
Qed.

(** In front of the host's [figma.com/] no other occurrence of it starts
    inside a host without slashes. *)
Lemma literal_inside_host (h t : string) :
  h <> EmptyString -> all_chars not_slash h = true ->
  Re.literal "figma.com/" (h ++ "figma.com/" ++ t) = None.
Proof.
  intros Hne Hh.
  destruct (Re.literal "figma.com/" (h ++ "figma.com/" ++ t)) as [r|] eqn:E;
    [|reflexivity].
  apply literal_Some in E.
  apply (f_equal before_slash) in E.
  rewrite before_slash_app in E by assumption.
  simpl in E. destruct h; [congruence | simpl in E; lia].
Qed.

Lemma search_cons (c : ascii) (s : string) :
  Re.search (String c s) =
  match Re.match_here (String c s) with
  | Some k => Some k
  | None => Re.search s
  end.
Proof. reflexivity. Qed.

Lemma search_skip_host (h t : string) :
  all_chars not_slash h = true ->
  Re.search (h ++ "figma.com/" ++ t) = Re.search ("figma.com/" ++ t).
Proof.
  induction h as [|c h IH]; intros Hh; [reflexivity|].
  assert (Hm : Re.match_here (String c h ++ "figma.com/" ++ t) = None).
  { unfold Re.match_here. rewrite literal_inside_host; [reflexivity|discriminate|assumption]. }
  change (String c h ++ "figma.com/" ++ t) with (String c (h ++ "figma.com/" ++ t)) in *.
  rewrite search_cons, Hm. apply IH.
  simpl in Hh. now apply andb_true_iff in Hh.
Qed.

Lemma take_alnum_key (K rest : string) :
  all_chars Re.is_alnum K = true ->
  Re.take_alnum (K ++ String "/" rest) = K.
Proof.
  induction K as [|c K IH]; simpl; [reflexivity|].
  rewrite andb_true_iff. intros [Hc HK]. rewrite Hc. now rewrite IH.
Qed.

Lemma match_here_route (P K rest : string) :
  In P Re.routes -> valid_key K = true ->
  Re.match_here ("figma.com/" ++ P ++ "/" ++ K ++ "/" ++ rest) = Some K.
Proof.
  intros HP HK. unfold valid_key in HK. apply andb_true_iff in HK as [Hne HK].
  unfold Re.match_here. rewrite literal_app.
  assert (Ha : Re.alternatives Re.routes (P ++ "/" ++ K ++ "/" ++ rest)
               = Some ("/" ++ K ++ "/" ++ rest)).
  { simpl in HP. destruct HP as [<-|[<-|[<-|[<-|[]]]]]; reflexivity. }
  rewrite Ha, literal_app.
  change (K ++ "/" ++ rest) with (K ++ String "/" rest).
  rewrite take_alnum_key by assumption.
  destruct K; [discriminate | reflexivity].
Qed.

(* ===================================================================== *)
(** * Locator parser: properties *)

Lemma locator_split (host P K rest : string) :
  locator host P K rest
  = ("https://" ++ host ++ "/" ++ P ++ "/" ++ K) ++ String "/" rest.
Proof.
  unfold locator. now rewrite !string_app_assoc.
Qed.

Lemma strip_locator (host P K rest : string) :
  PyStr.strip (locator host P K rest) = locator host P K (PyStr.rstrip rest).
Proof.
  unfold PyStr.strip. rewrite !locator_split.
  set (a := "https://" ++ host ++ "/" ++ P ++ "/" ++ K).
  replace (PyStr.lstrip (a ++ String "/" rest)) with (a ++ String "/" rest)
    by (symmetry; exact (lstrip_nonspace "h" _ eq_refl)).
  now apply rstrip_app_nonspace.
Qed.

Lemma search_locator (h P K rest : string) :
  In P Re.routes -> valid_key K = true -> all_chars not_slash h = true ->
  Re.search (locator (h ++ "figma.com") P K rest) = Some K.
Proof.
  intros HP HK Hh. unfold locator.
  rewrite (string_app_assoc h).
  change ("figma.com" ++ "/" ++ P ++ "/" ++ K ++ "/" ++ rest)
    with ("figma.com/" ++ P ++ "/" ++ K ++ "/" ++ rest).
  change ("https://" ++ h ++ "figma.com/" ++ P ++ "/" ++ K ++ "/" ++ rest)
    with (String "h" (String "t" (String "t" (String "p" (String "s" (String ":"
           (String "/" (String "/"
              (h ++ "figma.com/" ++ P ++ "/" ++ K ++ "/" ++ rest))))))))).
  do 8 (rewrite search_cons; change (Re.match_here (String ?c ?s)) with (@None string)).
  rewrite search_skip_host by assumption.
  change ("figma.com/" ++ P ++ "/" ++ K ++ "/" ++ rest)
    with (String "f" ("igma.com/" ++ P ++ "/" ++ K ++ "/" ++ rest)) at 1.
  rewrite search_cons.
  change (String "f" ("igma.com/" ++ P ++ "/" ++ K ++ "/" ++ rest))
    with ("figma.com/" ++ P ++ "/" ++ K ++ "/" ++ rest).
  now rewrite match_here_route.
Qed.

(** C3 (as stated, refuted). The host [example.com] with the supported
    route [file] and the valid key [ABC123]: the pattern needs the literal
    text [figma.com/] in front of the route, so the parser raises
    [ValueError] instead of yielding the key. *)
Lemma extract_file_key_other_host :
  In "file" Re.routes /\ valid_key "ABC123" = true /\
  extract_file_key (locator "example.com" "file" "ABC123" "MyFile") = Raise ValueError /\
  extract_file_key (locator "example.com" "file" "ABC123" "MyFile") <> Ok "ABC123".
Proof.
  split; [left; reflexivity|]. split; [reflexivity|].
  split; [reflexivity | discriminate].
Qed.

(** C3 (amended). For every supported route prefix [P], every valid key
    [K] and every host that ends in [figma.com] (and, being a host,
    contains no slash), parsing [https://host/P/K/rest] yields [K]. *)
Theorem extract_file_key_figma_host (h P K rest : string) :
  In P Re.routes -> valid_key K = true -> all_chars not_slash h = true ->
  extract_file_key (locator (h ++ "figma.com") P K rest) = Ok K.
Proof.
  intros HP HK Hh. unfold extract_file_key.
  rewrite strip_locator.
  assert (Hp : PyStr.startswith (locator (h ++ "figma.com") P K (PyStr.rstrip rest)) "http" = true)
    by reflexivity.
  rewrite Hp. simpl negb. cbv iota.
  now rewrite search_locator.
Qed.

Lemma extract_file_key_figma_host_witness :
  extract_file_key (locator ("www." ++ "figma.com") "design" "ABC123" "MyFile?node-id=1-2")
  = Ok "ABC123".
Proof.
  apply (extract_file_key_figma_host "www." "design" "ABC123" "MyFile?node-id=1-2").
  - right; left; reflexivity.
  - reflexivity.
  - reflexivity.
Defined.

(** C4 (as stated, refuted). The input [" abc"] does not start with a
    scheme, yet the parser returns ["abc"], not the input unchanged. *)
Lemma extract_file_key_not_verbatim :
  PyStr.startswith " abc" "http" = false /\
  extract_file_key " abc" = Ok "abc" /\
  extract_file_key " abc" <> Ok " abc".
Proof.
  split; [reflexivity|]. split; [reflexivity | discriminate].
Qed.

(** C4 (amended). For every input string whose form without leading and
    trailing white space does not start with [http], the parser returns
    that trimmed form; an input with no white space at its ends is
    returned unchanged. *)
Theorem extract_file_key_bare (s : string) :
  PyStr.startswith (PyStr.strip s) "http" = false ->
  extract_file_key s = Ok (PyStr.strip s) /\
  (no_outer_space s = true -> extract_file_key s = Ok s).
Proof.
  intros H. unfold extract_file_key. rewrite H. simpl.
  split; [reflexivity|].
  intros Hs. now rewrite (strip_no_outer_space s Hs).
Qed.

Lemma extract_file_key_bare_witness :
  extract_file_key "  AbC123xyz " = Ok (PyStr.strip "  AbC123xyz ") /\
  (no_outer_space "  AbC123xyz " = true -> extract_file_key "  AbC123xyz " = Ok "  AbC123xyz ").
Proof.
  apply (extract_file_key_bare "  AbC123xyz "). reflexivity.
Defined.

(* ===================================================================== *)
(** * Dictionaries: properties *)

Lemma dict_get_set {A : Type} (k k' : string) (v : A) (d : dict A) :
  dict_get k (dict_set k' v d) = if String.eqb k' k then Some v else dict_get k d.
Proof.
  induction d as [|[k0 v0] d IH]; simpl.
  - reflexivity.
  - destruct (String.eqb k0 k') eqn:E0; simpl.
    + apply String.eqb_eq in E0. subst k0. now destruct (String.eqb k' k).
    + destruct (String.eqb k0 k) eqn:E1.
      * apply String.eqb_eq in E1. subst k0.
        rewrite String.eqb_sym in E0. now rewrite E0.
      * exact IH.
Qed.

Lemma dict_get_set_eq {A : Type} (k : string) (v : A) (d : dict A) :
  dict_get k (dict_set k v d) = Some v.
Proof. rewrite dict_get_set. now rewrite String.eqb_refl. Qed.

Lemma dict_get_set_neq {A : Type} (k k' : string) (v : A) (d : dict A) :
  String.eqb k' k = false -> dict_get k (dict_set k' v d) = dict_get k d.
Proof. intros H. rewrite dict_get_set. now rewrite H. Qed.

(* ===================================================================== *)
(** * Rounding: properties *)

Lemma round_half_even_nearest (m e : Z) :
  nearest_even m e (Num.round_half_even m e).
Proof.
  unfold nearest_even, Num.round_half_even. split; intros He.
  - destruct (Z.leb_spec 0 e); [reflexivity | lia].
  - destruct (Z.leb_spec 0 e); [lia|].
    assert (Hd : (0 < 2 ^ (- e))%Z) by (apply Z.pow_pos_nonneg; lia).
    set (d := (2 ^ (- e))%Z) in *.
    pose proof (Z.div_mod m d ltac:(lia)) as Hdm.
    pose proof (Z.mod_pos_bound m d Hd) as Hr.
    set (q := (m / d)%Z) in *. set (r := (m mod d)%Z) in *.
    destruct (Z.ltb_spec (2 * r) d).
    + replace (q * d - m)%Z with (- r)%Z by lia. split; lia.
    + destruct (Z.ltb_spec d (2 * r)).
      * replace ((q + 1) * d - m)%Z with (d - r)%Z by lia. split; lia.
      * destruct (Z.even q) eqn:Eq.
        -- replace (q * d - m)%Z with (- r)%Z by lia. split; [lia | now intros _].
        -- replace ((q + 1) * d - m)%Z with (d - r)%Z by lia. split; [lia|].
           intros _. rewrite Z.even_add, Eq. reflexivity.
Qed.

Lemma py_round_rounds_to (x : float) :
  finite x = true -> exists n, Num.py_round x = Ok n /\ rounds_to x n.
Proof.
  unfold finite, Num.py_round, rounds_to.
  destruct (Prim2SF x) as [s|s| |s m e]; try discriminate; intros _.
  - now exists 0%Z.
  - eexists; split; [reflexivity|].
    pose proof (round_half_even_nearest (Zpos m) e) as H.
    destruct s; [|exact H].
    now rewrite Z.opp_involutive.
Qed.

Lemma digit_is_digit (k : Z) :
  (0 <= k <= 9)%Z -> is_digit (Num.digit k) = true.
Proof.
  intros H.
  assert (Hk : (k = 0 \/ k = 1 \/ k = 2 \/ k = 3 \/ k = 4 \/
                k = 5 \/ k = 6 \/ k = 7 \/ k = 8 \/ k = 9)%Z) by lia.
  repeat (destruct Hk as [->|Hk]; [reflexivity|]). now subst k.
Qed.

Lemma digits3_shape (n : Z) :
  (0 <= n < 1000)%Z ->
  String.length (Num.digits3 n) = 3%nat /\ all_chars is_digit (Num.digits3 n) = true.
Proof.
  intros H. split; [reflexivity|].
  unfold Num.digits3. simpl.
  rewrite !digit_is_digit; [reflexivity| | |].
  - pose proof (Z.mod_pos_bound n 10 ltac:(lia)). lia.
  - pose proof (Z.mod_pos_bound (n / 10) 10 ltac:(lia)). lia.
  - split; [apply Z.div_pos; lia | ].
    assert (n / 100 < 10)%Z by (apply Z.div_lt_upper_bound; lia). lia.
Qed.

(** [f"{x:.3f}"] of a finite float: some text, a point, three digits. *)
Lemma format_3f_shape (x : float) :
  finite x = true ->
  exists ip frac : string,
    Num.format_3f x = ip ++ "." ++ frac /\
    String.length frac = 3%nat /\ all_chars is_digit frac = true.
Proof.
  unfold finite, Num.format_3f.
  destruct (Prim2SF x) as [s|s| |s m e]; try discriminate; intros _.
  - exists ((if s then "-" else "") ++ "0"), "000".
    split; [now destruct s | split; reflexivity].
  - set (n := Num.round_half_even (Z.pos m * 1000) e).
    exists ((if s then "-" else "") ++ Num.str_of_int (n / 1000)),
           (Num.digits3 (n mod 1000)).
    split; [now rewrite string_app_assoc|].
    apply digits3_shape. apply Z.mod_pos_bound. lia.
Qed.

(* ===================================================================== *)
(** * Colour conversion: properties *)

(** C5 (as stated, refuted). The red channel [0.00980392156862745] scales
    to the float 2.5 exactly; [round] takes the tie to the even integer 2,
    where rounding halves away from zero gives 3. *)
Lemma figma_color_to_css_tie_to_even :
  Prim2SF (scaled tie_color "r") = Prim2SF 2.5%float /\
  figma_color_to_css (Some tie_color) 1%float = Ok (Some "rgb(2, 0, 0)") /\
  figma_color_to_css_half_away (Some tie_color) 1%float = Ok (Some "rgb(3, 0, 0)") /\
  figma_color_to_css (Some tie_color) 1%float
    <> figma_color_to_css_half_away (Some tie_color) 1%float.
Proof.
  split; [vm_compute; reflexivity|].
  split; [vm_compute; reflexivity|].
  split; [vm_compute; reflexivity|].
  vm_compute. discriminate.
Qed.

(** C5 (amended). For every non-empty colour record and every opacity
    multiplier whose scaled channels and effective alpha are finite floats
    (as they are for channels in the 0-1 range), the conversion computes
    the effective alpha as the colour's alpha times the multiplier, rounds
    each of r, g, b scaled by 255 to the nearest integer with halves going
    to the even neighbour, and returns the 3-channel [rgb] text when the
    effective alpha is at least 0.999 and otherwise the 4-channel [rgba]
    text whose alpha has exactly three decimal places; half red at 50%
    alpha gives [rgba(128, 0, 0, 0.500)]. *)
Theorem figma_color_to_css_rounding (c : dict float) (opacity : float) :
  c <> [] ->
  finite (scaled c "r") = true ->
  finite (scaled c "g") = true ->
  finite (scaled c "b") = true ->
  finite (effective_alpha c opacity) = true ->
  (exists r g b : Z,
      rounds_to (scaled c "r") r /\
      rounds_to (scaled c "g") g /\
      rounds_to (scaled c "b") b /\
      figma_color_to_css (Some c) opacity
      = Ok (Some (if (0.999 <=? effective_alpha c opacity)%float
                  then css_rgb r g b
                  else css_rgba r g b (effective_alpha c opacity)))) /\
  (exists ip frac : string,
      Num.format_3f (effective_alpha c opacity) = ip ++ "." ++ frac /\
      String.length frac = 3%nat /\ all_chars is_digit frac = true) /\
  figma_color_to_css (Some half_red) 1%float = Ok (Some "rgba(128, 0, 0, 0.500)").
Proof.
  intros Hc Hr Hg Hb Ha.
  split; [|split; [now apply format_3f_shape | vm_compute; reflexivity]].
  destruct (py_round_rounds_to _ Hr) as (r & Er & Rr).
  destruct (py_round_rounds_to _ Hg) as (g & Eg & Rg).
  destruct (py_round_rounds_to _ Hb) as (b & Eb & Rb).
  exists r, g, b. repeat (split; [assumption|]).
  destruct c as [|kv c]; [congruence|].
  unfold figma_color_to_css.
  fold (scaled (kv :: c) "r"). fold (scaled (kv :: c) "g"). fold (scaled (kv :: c) "b").
  fold (effective_alpha (kv :: c) opacity).
  rewrite Er, Eg, Eb. simpl bind.
  now destruct (0.999 <=? effective_alpha (kv :: c) opacity)%float.
Qed.

Lemma figma_color_to_css_rounding_witness :
  (exists r g b : Z,
      rounds_to (scaled half_red "r") r /\
      rounds_to (scaled half_red "g") g /\
      rounds_to (scaled half_red "b") b /\
      figma_color_to_css (Some half_red) 1%float
      = Ok (Some (if (0.999 <=? effective_alpha half_red 1%float)%float
                  then css_rgb r g b
                  else css_rgba r g b (effective_alpha half_red 1%float)))) /\
  (exists ip frac : string,
      Num.format_3f (effective_alpha half_red 1%float) = ip ++ "." ++ frac /\
      String.length frac = 3%nat /\ all_chars is_digit frac = true) /\
  figma_color_to_css (Some half_red) 1%float = Ok (Some "rgba(128, 0, 0, 0.500)").
Proof.
  apply (figma_color_to_css_rounding half_red 1%float).
  - discriminate.
  - vm_compute; reflexivity.
  - vm_compute; reflexivity.
  - vm_compute; reflexivity.
  - vm_compute; reflexivity.
Defined.

Lemma figma_color_to_css_channels (c : dict float) (opacity : float) :
  c <> [] ->
  figma_color_to_css (Some c) opacity
  = css_of_channels (get_default c "r" 0%float) (get_default c "g" 0%float)
                    (get_default c "b" 0%float) (get_default c "a" 1%float) opacity.
Proof.
  intros Hc. destruct c as [|kv c]; [congruence | reflexivity].
Qed.

(** The rounded value of one colour channel: that of the channel when the
    record has it, 0 when it has not. *)
Lemma channel_round (c : dict float) (k : string) :
  (forall x, dict_get k c = Some x -> finite (x * 255)%float = true) ->
  exists n : Z,
    Num.py_round (get_default c k 0 * 255)%float = Ok n /\
    match dict_get k c with
    | Some x => rounds_to (x * 255)%float n
    | None => n = 0%Z
    end.
Proof.
  intros H. unfold get_default.
  destruct (dict_get k c) as [x|].
  - exact (py_round_rounds_to _ (H x eq_refl)).
  - exists 0%Z. split; [vm_compute|]; reflexivity.
Qed.

(** C10. An empty colour record is treated like an absent colour: the
    result is the no-colour value, not opaque black. For a non-empty record
    (whose present channels scale to finite floats) the text carries, for
    each of r, g and b, the rounded channel when the record has it and 0
    when it is missing, and its alpha is the record's alpha times the
    multiplier, with 1.0 in place of a missing alpha. *)
Theorem figma_color_to_css_defaults (c : dict float) (opacity : float) :
  c <> [] ->
  (forall x, dict_get "r" c = Some x -> finite (x * 255)%float = true) ->
  (forall x, dict_get "g" c = Some x -> finite (x * 255)%float = true) ->
  (forall x, dict_get "b" c = Some x -> finite (x * 255)%float = true) ->
  figma_color_to_css None opacity = Ok None /\
  figma_color_to_css (Some []) opacity = Ok None /\
  figma_color_to_css (Some []) opacity <> Ok (Some "rgb(0, 0, 0)") /\
  exists (r g b : Z) (a : float),
    figma_color_to_css (Some c) opacity
    = Ok (Some (if (0.999 <=? a)%float then css_rgb r g b else css_rgba r g b a)) /\
    match dict_get "r" c with
    | Some x => rounds_to (x * 255)%float r
    | None => r = 0%Z
    end /\
    match dict_get "g" c with
    | Some x => rounds_to (x * 255)%float g
    | None => g = 0%Z
    end /\
    match dict_get "b" c with
    | Some x => rounds_to (x * 255)%float b
    | None => b = 0%Z
    end /\
    a = match dict_get "a" c with
        | Some x => (x * opacity)%float
        | None => (1 * opacity)%float
        end.
Proof.
  intros Hc Hr Hg Hb.
  split; [reflexivity|]. split; [reflexivity|]. split; [discriminate|].
  destruct (channel_round c "r" Hr) as (r & Er & Kr).
  destruct (channel_round c "g" Hg) as (g & Eg & Kg).
  destruct (channel_round c "b" Hb) as (b & Eb & Kb).
  exists r, g, b, (get_default c "a" 1 * opacity)%float.
  split; [|split; [exact Kr|split; [exact Kg|split; [exact Kb|]]]].
  - rewrite (figma_color_to_css_channels c opacity Hc). unfold css_of_channels.
    rewrite Er, Eg, Eb. cbn [bind].
    now destruct (0.999 <=? get_default c "a" 1 * opacity)%float.
  - unfold get_default. now destruct (dict_get "a" c).
Qed.

(** A record with only a blue channel, at half opacity: red and green are
    0, alpha is 1.0 times 0.5. *)
Lemma figma_color_to_css_defaults_witness :
  (exists (r g b : Z) (a : float),
      figma_color_to_css (Some [("b", 0.5%float)]) 0.5%float
      = Ok (Some (if (0.999 <=? a)%float then css_rgb r g b else css_rgba r g b a)) /\
      r = 0%Z /\ g = 0%Z /\ rounds_to (0.5 * 255)%float b /\
      a = (1 * 0.5)%float) /\
  figma_color_to_css (Some [("b", 0.5%float)]) 0.5%float
  = Ok (Some "rgba(0, 0, 128, 0.500)").
Proof.
  split; [|vm_compute; reflexivity].
  destruct (figma_color_to_css_defaults [("b", 0.5%float)] 0.5%float)
    as (_ & _ & _ & r & g & b & a & E & Kr & Kg & Kb & Ka).
  - discriminate.
  - intros x Hx. discriminate Hx.
  - intros x Hx. discriminate Hx.
  - intros x Hx. injection Hx as <-. vm_compute; reflexivity.
  - exists r, g, b, a.
    split; [exact E|]. split; [exact Kr|]. split; [exact Kg|].
    split; [exact Kb | exact Ka].
Defined.

(* ===================================================================== *)
(** * Document trees: properties *)

Lemma is_node_fields (d : dict value) :
  is_node (VDict d) = forallb (fun kv => field_ok (fst kv) (snd kv)) d.
Proof.
  simpl. induction d as [|[k x] d IH]; [reflexivity|].
  simpl forallb. rewrite <- IH. reflexivity.
Qed.

Lemma is_node_dict (v : value) :
  is_node v = true -> exists d, v = VDict d.
Proof. destruct v; try discriminate. intros _. now eexists. Qed.

Lemma is_node_field (d : dict value) (k : string) (x : value) :
  is_node (VDict d) = true -> dict_get k d = Some x -> field_ok k x = true.
Proof.
  rewrite is_node_fields. induction d as [|[k0 x0] d IH]; [discriminate|].
  simpl. rewrite andb_true_iff. intros [H0 Hd].
  destruct (String.eqb k0 k) eqn:E.
  - apply String.eqb_eq in E. subst k0. intros [= <-]. exact H0.
  - now apply IH.
Qed.

Lemma is_node_name (d : dict value) :
  is_node (VDict d) = true ->
  dict_get "name" d = None \/ exists s, dict_get "name" d = Some (VStr s).
Proof.
  intros H. destruct (dict_get "name" d) as [x|] eqn:E; [right | now left].
  apply (is_node_field d _ _ H) in E. destruct x; try discriminate. now eexists.
Qed.

Lemma is_node_children (d : dict value) :
  is_node (VDict d) = true ->
  get_default d "children" (VList []) = VList (children_of d) /\
  forallb is_node (children_of d) = true.
Proof.
  intros H. unfold get_default, children_of.
  destruct (dict_get "children" d) as [x|] eqn:E; [|now split].
  apply (is_node_field d _ _ H) in E. destruct x; try discriminate. now split.
Qed.

Lemma preorder_node (d : dict value) :
  preorder (VDict d) = VDict d :: flat_map preorder (children_of d).
Proof.
  simpl. f_equal. unfold children_of.
  induction d as [|[k x] d IH]; [reflexivity|].
  simpl dict_get. destruct (String.eqb k "children"); [|exact IH].
  destruct x; reflexivity.
Qed.

Lemma push_all_app (cs stack : list value) :
  push_all cs stack = (rev cs ++ stack)%list.
Proof.
  unfold push_all. revert stack.
  induction cs as [|c cs IH]; intros stack; [reflexivity|].
  simpl. rewrite IH. now rewrite <- app_assoc.
Qed.

(** Pushing the children in reverse leaves the first child on top. *)
Lemma push_all_rev (l stack : list value) :
  push_all (rev l) stack = (l ++ stack)%list.
Proof. rewrite push_all_app. now rewrite rev_involutive. Qed.

(* ===================================================================== *)
(** * Find by name: properties *)

Lemma name_matches_node (q : string) (d : dict value) :
  is_node (VDict d) = true ->
  name_matches q (get_default d "name" (VStr "")) = Ok (name_is q (VDict d)).
Proof.
  intros H. unfold get_default, name_is.
  destruct (is_node_name d H) as [E|[s E]]; rewrite E; [reflexivity|].
  destruct s; reflexivity.
Qed.

Lemma find_name_loop_step (q : string) (fuel : nat) (current : value) (stack : list value) :
  find_name_loop q (S fuel) (current :: stack) =
  if negb (truthy current) then find_name_loop q fuel stack
  else
    match current with
    | VDict d =>
        match name_matches q (get_default d "name" (VStr "")) with
        | Raise e => Some (Raise e)
        | Ok true => Some (Ok (Some current))
        | Ok false =>
            match py_reversed (get_default d "children" (VList [])) with
            | Raise e => Some (Raise e)
            | Ok cs => find_name_loop q fuel (push_all cs stack)
            end
        end
    | _ => Some (Raise AttributeError)
    end.
Proof. reflexivity. Qed.

Lemma flat_map_preorder_cons (d : dict value) (stack : list value) :
  flat_map preorder (VDict d :: stack)
  = VDict d :: (flat_map preorder (children_of d) ++ flat_map preorder stack)%list.
Proof.
  change (flat_map preorder (VDict d :: stack))
    with (preorder (VDict d) ++ flat_map preorder stack)%list.
  now rewrite preorder_node.
Qed.

(** The loop, started on a stack of nodes with enough fuel for all of
    their subtrees, returns the first node in document order that passes the
    name test. *)
Lemma find_name_loop_preorder (q : string) (fuel : nat) :
  forall stack : list value,
    forallb is_node stack = true ->
    (List.length (flat_map preorder stack) <= fuel)%nat ->
    find_name_loop q fuel stack
    = Some (Ok (List.find (name_is q) (flat_map preorder stack))).
Proof.
  induction fuel as [|fuel IH]; intros [|current stack] Hs Hf;
    try reflexivity;
    simpl in Hs; apply andb_true_iff in Hs as [Hc Hs];
    destruct (is_node_dict _ Hc) as [d ->];
    rewrite flat_map_preorder_cons in *; simpl in Hf; [lia|].
  rewrite find_name_loop_step.
  destruct d as [|kv d'] eqn:Ed.
  - simpl. apply IH; [assumption | simpl in Hf; lia].
  - rewrite <- Ed in *. replace (truthy (VDict d)) with true by (now subst d).
    simpl negb. cbv iota.
    rewrite (name_matches_node q d Hc).
    cbn [List.find].
    destruct (name_is q (VDict d)); [reflexivity|].
    destruct (is_node_children d Hc) as [Ech Hch].
    rewrite Ech.
    change (py_reversed (VList (children_of d))) with (Ok (rev (children_of d))).
    cbv iota. rewrite push_all_rev.
    rewrite IH.
    + now rewrite flat_map_app.
    + rewrite forallb_app. now rewrite Hch, Hs.
    + rewrite flat_map_app. lia.
Qed.

Lemma find_node_by_name_preorder (root : value) (name : string) (fuel : nat) :
  is_node root = true -> (node_count root <= fuel)%nat ->
  find_node_by_name fuel root name
  = Some (Ok (List.find (name_is (PyStr.lower (PyStr.strip name))) (preorder root))).
Proof.
  intros Hr Hf. unfold find_node_by_name.
  rewrite find_name_loop_preorder.
  - simpl. now rewrite app_nil_r.
  - simpl. now rewrite Hr.
  - simpl. rewrite app_nil_r. exact Hf.
Qed.

(** C2 (as stated, refuted). A node whose name is the empty string and the
    empty query: the name, trimmed and lower-cased, equals the query
    trimmed and lower-cased, so the stated rule selects the node; the
    lookup returns the not-found value. *)
Lemma find_node_by_name_empty_name :
  is_node unnamed_node = true /\
  first_by_name unnamed_node "" = Some unnamed_node /\
  find_node_by_name (node_count unnamed_node) unnamed_node "" = Some (Ok None).
Proof. repeat split. Qed.

(** C2 (amended). For every finite tree of nodes and every query string,
    find-by-name (given fuel for one step per node) returns the first node,
    in pre-order document order, whose name is non-empty and, after
    trimming white space and lower-casing, equals the query after trimming
    and lower-casing; it returns the not-found value when there is no such
    node. *)
Theorem find_node_by_name_first_match (root : value) (name : string) (fuel : nat) :
  is_node root = true -> (node_count root <= fuel)%nat ->
  find_node_by_name fuel root name
  = Some (Ok (List.find (name_is (PyStr.lower (PyStr.strip name))) (preorder root))) /\
  (forall n, find_node_by_name fuel root name = Some (Ok (Some n)) ->
             In n (preorder root) /\ name_is (PyStr.lower (PyStr.strip name)) n = true) /\
  (find_node_by_name fuel root name = Some (Ok None) <->
   forall n, In n (preorder root) -> name_is (PyStr.lower (PyStr.strip name)) n = false).
Proof.
  intros Hr Hf. rewrite (find_node_by_name_preorder root name fuel Hr Hf).
  split; [reflexivity|]. split.
  - intros n [= E]. now apply find_some in E.
  - split.
    + intros [= E] n Hn. exact (find_none _ _ E n Hn).
    + intros Hall.
      destruct (List.find _ (preorder root)) as [n|] eqn:E; [|reflexivity].
      apply find_some in E as [Hn Hm]. rewrite (Hall n Hn) in Hm. discriminate.
Qed.

(** A node named ["  Header  "] is found by the query ["header"]. *)
Lemma find_node_by_name_first_match_witness :
  find_node_by_name (node_count header_doc) header_doc "header"
  = Some (Ok (Some (VDict [ ("id", VStr "1:2"); ("name", VStr "  Header  ");
                            ("type", VStr "FRAME") ]))).
Proof.
  exact (proj1 (find_node_by_name_first_match header_doc "header" (node_count header_doc)
                  eq_refl (le_n _))).
Defined.

(** C9 (as stated, refuted). A node named with two spaces has a non-empty
    name that normalises to the empty string; the white-space query [" "]
    returns that node, not the not-found value. *)
Lemma find_node_by_name_blank_match :
  is_node blank_node = true /\
  PyStr.strip " " = "" /\
  blank_name blank_node = true /\
  find_node_by_name (node_count blank_node) blank_node " " = Some (Ok (Some blank_node)).
Proof. repeat split. Qed.

(** C9 (amended). Nodes with an empty or missing name are never candidates
    for a name match: a node the lookup returns has a non-empty name. For a
    query of white space only, a returned node has a non-empty name made of
    white space only, and the lookup returns the not-found value on every
    tree without such a node, whatever names normalise to the empty
    string. *)
Theorem find_node_by_name_blank_query (root : value) (name : string) (fuel : nat) :
  is_node root = true -> (node_count root <= fuel)%nat ->
  (forall n, find_node_by_name fuel root name = Some (Ok (Some n)) ->
     exists d s, n = VDict d /\ dict_get "name" d = Some (VStr s) /\ s <> "") /\
  (PyStr.strip name = "" ->
     (forall n, find_node_by_name fuel root name = Some (Ok (Some n)) ->
                blank_name n = true) /\
     ((forall n, In n (preorder root) -> blank_name n = false) ->
      find_node_by_name fuel root name = Some (Ok None))).
Proof.
  intros Hr Hf. rewrite (find_node_by_name_preorder root name fuel Hr Hf).
  assert (Hname : forall q n, name_is q n = true ->
            exists d s, n = VDict d /\ dict_get "name" d = Some (VStr s) /\
                        PyStr.truthy s = true /\
                        String.eqb (PyStr.lower (PyStr.strip s)) q = true).
  { intros q n. unfold name_is. destruct n as [| | | | | |d]; try discriminate.
    destruct (dict_get "name" d) as [x|] eqn:E; [|discriminate].
    destruct x as [| | | |s| |]; try discriminate.
    rewrite andb_true_iff. intros [H1 H2]. exists d, s. repeat split; assumption. }
  assert (Hlow : forall s, PyStr.lower s = "" -> s = "").
  { intros s. destruct s; [reflexivity | discriminate]. }
  split.
  - intros n [= E]. apply find_some in E as [_ E].
    destruct (Hname _ _ E) as (d & s & -> & Hd & Hs & _).
    exists d, s. repeat split; [assumption|]. intros ->. discriminate.
  - intros Hq. rewrite Hq. simpl PyStr.lower. split.
    + intros n [= E]. apply find_some in E as [_ E].
      destruct (Hname _ _ E) as (d & s & -> & Hd & Hs & He).
      unfold blank_name. rewrite Hd, Hs. simpl.
      apply String.eqb_eq in He. apply Hlow in He. rewrite He. reflexivity.
    + intros Hall.
      destruct (List.find _ (preorder root)) as [n|] eqn:E; [|reflexivity].
      apply find_some in E as [Hn E].
      destruct (Hname _ _ E) as (d & s & -> & Hd & Hs & He).
      specialize (Hall _ Hn). unfold blank_name in Hall. rewrite Hd, Hs in Hall.
      apply String.eqb_eq in He. apply Hlow in He. rewrite He in Hall. discriminate.
Qed.

Lemma find_node_by_name_blank_query_witness :
  find_node_by_name (node_count header_doc) header_doc "   " = Some (Ok None).
Proof.
  apply (find_node_by_name_blank_query header_doc "   " (node_count header_doc)
           eq_refl (le_n _)); [reflexivity|].
  intros n Hn. simpl in Hn.
  repeat (destruct Hn as [<-|Hn]; [reflexivity|]). destruct Hn.
Defined.

(* ===================================================================== *)
(** * Top-level containers: properties *)

Lemma scan_page_nodes (page : dict value) (nodes : list value) :
  forallb is_node nodes = true ->
  forall frames,
    scan_page page nodes frames
    = Ok (frames ++ flat_map (container_entry page) nodes)%list.
Proof.
  induction nodes as [|node nodes IH]; intros Hn frames.
  - simpl. now rewrite app_nil_r.
  - simpl in Hn. apply andb_true_iff in Hn as [Hc Hn].
    destruct (is_node_dict _ Hc) as [n ->].
    simpl scan_page. simpl flat_map. unfold container_entry at 1.
    destruct (is_container_type (get_default n "type" (VStr ""))).
    + rewrite (IH Hn). now rewrite <- app_assoc.
    + now rewrite (IH Hn).
Qed.

Lemma scan_pages_nodes (pages : list value) :
  forallb is_node pages = true ->
  forall frames,
    scan_pages pages frames = Ok (frames ++ flat_map page_frames pages)%list.
Proof.
  induction pages as [|page pages IH]; intros Hp frames.
  - simpl. now rewrite app_nil_r.
  - simpl in Hp. apply andb_true_iff in Hp as [Hc Hp].
    destruct (is_node_dict _ Hc) as [p ->].
    destruct (is_node_children p Hc) as [Ech Hch].
    simpl scan_pages. rewrite Ech. simpl py_iter. simpl bind.
    rewrite (scan_page_nodes p _ Hch). simpl bind.
    rewrite (IH Hp). simpl flat_map. now rewrite <- app_assoc.
Qed.

(** On a document of nodes the enumeration returns the records of the
    container nodes directly under the pages, page by page. *)
Lemma list_top_level_frames_nodes (root : value) :
  is_node root = true ->
  list_top_level_frames root = Ok (top_level_frames root).
Proof.
  intros Hr. destruct (is_node_dict _ Hr) as [r ->].
  destruct (is_node_children r Hr) as [Ech Hch].
  unfold list_top_level_frames. simpl py_get. simpl bind.
  rewrite Ech. simpl py_iter. simpl bind.
  now rewrite (scan_pages_nodes _ Hch).
Qed.

Lemma top_level_frames_entries (root e : value) :
  In e (top_level_frames root) ->
  exists r p n,
    root = VDict r /\ In (VDict p) (children_of r) /\ In (VDict n) (children_of p) /\
    is_container_type (get_default n "type" (VStr "")) = true /\
    e = frame_entry p n.
Proof.
  destruct root as [| | | | | |r]; try contradiction. simpl.
  rewrite in_flat_map. intros (page & Hpage & He).
  destruct page as [| | | | | |p]; try contradiction. simpl in He.
  rewrite in_flat_map in He. destruct He as (node & Hnode & He).
  destruct node as [| | | | | |n]; try contradiction. simpl in He.
  destruct (is_container_type (get_default n "type" (VStr ""))) eqn:Et;
    [|contradiction].
  destruct He as [<-|[]]. now exists r, p, n.
Qed.

Lemma dict_get_map_children (f : value -> value) (k : string) (d : dict value) :
  dict_get k (map (fun kv => if String.eqb (fst kv) "children"
                             then (fst kv, map_list f (snd kv))
                             else kv) d)
  = if String.eqb k "children"
    then option_map (map_list f) (dict_get k d)
    else dict_get k d.
Proof.
  induction d as [|[k0 x] d IH]; simpl.
  - now destruct (String.eqb k "children").
  - destruct (String.eqb k0 "children") eqn:E0; simpl;
      destruct (String.eqb k0 k) eqn:E1; try exact IH.
    + apply String.eqb_eq in E1. subst k0. now rewrite E0.
    + apply String.eqb_eq in E1. subst k0. now rewrite E0.
Qed.

Lemma dict_get_without_children (k : string) (d : dict value) :
  String.eqb k "children" = false ->
  dict_get k (filter (fun kv => negb (String.eqb (fst kv) "children")) d) = dict_get k d.
Proof.
  intros Hk. induction d as [|[k0 x] d IH]; simpl; [reflexivity|].
  destruct (String.eqb k0 "children") eqn:E0; simpl.
  - destruct (String.eqb k0 k) eqn:E1; [|exact IH].
    apply String.eqb_eq in E1. subst k0. congruence.
  - now rewrite IH.
Qed.

Lemma frame_entry_cut (p p' n : dict value) :
  get_default p' "name" (VStr "Unnamed Page") = get_default p "name" (VStr "Unnamed Page") ->
  frame_entry p' (filter (fun kv => negb (String.eqb (fst kv) "children")) n)
  = frame_entry p n.
Proof.
  intros Hp. unfold frame_entry, get_default in *.
  rewrite !dict_get_without_children by reflexivity. now rewrite Hp.
Qed.

Lemma scan_page_cut (p p' : dict value) (nodes : list value) :
  get_default p' "name" (VStr "Unnamed Page") = get_default p "name" (VStr "Unnamed Page") ->
  forall frames,
    scan_page p' (map without_children nodes) frames = scan_page p nodes frames.
Proof.
  intros Hp. induction nodes as [|node nodes IH]; intros frames; [reflexivity|].
  destruct node as [| | | | | |n]; try reflexivity.
  simpl. unfold get_default at 1.
  rewrite dict_get_without_children by reflexivity.
  fold (get_default n "type" (VStr "")).
  rewrite (frame_entry_cut p p' n Hp).
  destruct (is_container_type (get_default n "type" (VStr ""))); apply IH.
Qed.

Lemma scan_page_same_name (p p' : dict value) (nodes : list value) :
  get_default p' "name" (VStr "Unnamed Page") = get_default p "name" (VStr "Unnamed Page") ->
  forall frames, scan_page p' nodes frames = scan_page p nodes frames.
Proof.
  intros Hp. induction nodes as [|node nodes IH]; intros frames; [reflexivity|].
  destruct node as [| | | | | |n]; try reflexivity.
  simpl. unfold frame_entry. rewrite Hp.
  destruct (is_container_type (get_default n "type" (VStr ""))); apply IH.
Qed.

Lemma scan_pages_cut (pages : list value) :
  forall frames,
    scan_pages (map (map_children without_children) pages) frames
    = scan_pages pages frames.
Proof.
  induction pages as [|page pages IH]; intros frames; [reflexivity|].
  destruct page as [| | | | | |p]; try reflexivity.
  simpl map. unfold map_children at 1.
  set (p' := map (fun kv => if String.eqb (fst kv) "children"
                            then (fst kv, map_list without_children (snd kv))
                            else kv) p).
  assert (Hname : get_default p' "name" (VStr "Unnamed Page")
                  = get_default p "name" (VStr "Unnamed Page")).
  { unfold get_default, p'. now rewrite dict_get_map_children. }
  assert (Hch : get_default p' "children" (VList [])
                = map_list without_children (get_default p "children" (VList []))).
  { unfold get_default, p'. rewrite dict_get_map_children. simpl.
    now destruct (dict_get "children" p). }
  simpl scan_pages. rewrite Hch.
  destruct (get_default p "children" (VList [])) as [| | | | |l|]; simpl;
    try reflexivity.
  - rewrite (scan_page_same_name p p' _ Hname).
    destruct (scan_page p (chars s) frames); simpl; [apply IH | reflexivity].
  - rewrite (scan_page_cut p p' _ Hname).
    destruct (scan_page p l frames); simpl; [apply IH | reflexivity].
  - rewrite (scan_page_same_name p p' _ Hname).
    destruct (scan_page p (keys d) frames); simpl; [apply IH | reflexivity].
Qed.

(** Nothing below the children of the pages is read: the enumeration gives
    the same result, or raises the same exception, on the cut tree. *)
Lemma list_top_level_frames_cut (root : value) :
  list_top_level_frames (cut_below_frames root) = list_top_level_frames root.
Proof.
  destruct root as [| | | | | |r]; try reflexivity.
  unfold list_top_level_frames, cut_below_frames, map_children at 1.
  simpl py_get. simpl bind. unfold get_default.
  rewrite dict_get_map_children. simpl.
  destruct (dict_get "children" r) as [x|]; [|reflexivity].
  destruct x as [| | | | |l|]; try reflexivity.
  simpl. apply scan_pages_cut.
Qed.

Lemma eq_str_true (v : value) (s : string) :
  eq_str v s = true <-> v = VStr s.
Proof.
  destruct v; simpl; try (split; [discriminate | intros [=]]).
  rewrite String.eqb_eq. split; [now intros -> | now intros [= ->]].
Qed.

Lemma container_type_names (t : value) :
  is_container_type t = true <->
  t = VStr "FRAME" \/ t = VStr "COMPONENT" \/ t = VStr "COMPONENT_SET".
Proof.
  unfold is_container_type. rewrite !orb_true_iff, !eq_str_true. tauto.
Qed.

Lemma top_level_frames_listed (r p n : dict value) :
  In (VDict p) (children_of r) -> In (VDict n) (children_of p) ->
  is_container_type (get_default n "type" (VStr "")) = true ->
  In (frame_entry p n) (top_level_frames (VDict r)).
Proof.
  intros Hp Hn Ht. simpl. apply in_flat_map. exists (VDict p).
  split; [assumption|]. simpl. apply in_flat_map. exists (VDict n).
  split; [assumption|]. simpl. rewrite Ht. now left.
Qed.

(** C6. On every document of nodes the top-level-container enumeration
    returns, page by page and in order, the records of exactly those nodes
    that lie directly under a direct child of the root and whose type is
    FRAME, COMPONENT or COMPONENT_SET: each such node is listed, with its
    id, name, type and the owning page's name, and nothing else is. What
    lies deeper is not read, so a matching node nested deeper is left
    out. *)
Theorem list_top_level_frames_two_levels (root : value) :
  is_node root = true ->
  list_top_level_frames root = Ok (top_level_frames root) /\
  (forall e, In e (top_level_frames root) <->
     exists r p n,
       root = VDict r /\ In (VDict p) (children_of r) /\ In (VDict n) (children_of p) /\
       (get_default n "type" (VStr "") = VStr "FRAME" \/
        get_default n "type" (VStr "") = VStr "COMPONENT" \/
        get_default n "type" (VStr "") = VStr "COMPONENT_SET") /\
       e = VDict [ ("id", get_default n "id" (VStr ""));
                   ("name", get_default n "name" (VStr "Unnamed"));
                   ("type", get_default n "type" (VStr ""));
                   ("page", get_default p "name" (VStr "Unnamed Page")) ]) /\
  list_top_level_frames (cut_below_frames root) = list_top_level_frames root.
Proof.
  intros Hr. split; [now apply list_top_level_frames_nodes|].
  split; [|apply list_top_level_frames_cut].
  intros e. split.
  - intros He.
    apply top_level_frames_entries in He as (r & p & n & -> & Hp & Hn & Ht & ->).
    exists r, p, n. apply container_type_names in Ht. now repeat split.
  - intros (r & p & n & -> & Hp & Hn & Ht & ->).
    apply container_type_names in Ht.
    now apply (top_level_frames_listed r p n).
Qed.

(** Of the nodes of [mixed_doc] the frame, the component and the component
    set under the first page and the frame under the second are listed; the
    text, the rectangle and the instance under the first page are not, nor
    is the frame three levels below the root. *)
Lemma list_top_level_frames_two_levels_witness :
  list_top_level_frames mixed_doc
  = Ok [ VDict [ ("id", VStr "1:2"); ("name", VStr "Outer"); ("type", VStr "FRAME");
                 ("page", VStr "Page 1") ];
         VDict [ ("id", VStr "1:5"); ("name", VStr "Button"); ("type", VStr "COMPONENT");
                 ("page", VStr "Page 1") ];
         VDict [ ("id", VStr "1:6"); ("name", VStr "Buttons"); ("type", VStr "COMPONENT_SET");
                 ("page", VStr "Page 1") ];
         VDict [ ("id", VStr "3:1"); ("name", VStr "Home"); ("type", VStr "FRAME");
                 ("page", VStr "Page 2") ] ].
Proof.
  exact (proj1 (list_top_level_frames_two_levels mixed_doc eq_refl)).
Defined.

(* ===================================================================== *)
(** * Name lookup tool: properties *)

Lemma frame_names_entries (frames : list value) :
  (forall e, In e frames -> exists p n, e = frame_entry p n) ->
  frame_names frames = Ok (map entry_name frames).
Proof.
  unfold frame_names.
  induction frames as [|e frames IH]; intros H; [reflexivity|].
  destruct (H e (or_introl eq_refl)) as (p & n & ->).
  simpl. rewrite IH; [reflexivity|].
  intros e' He'. apply H. now right.
Qed.

Lemma firstn_In_list {A : Type} (n : nat) (l : list A) (x : A) :
  In x (firstn n l) -> In x l.
Proof.
  revert l. induction n as [|n IH]; intros [|a l]; simpl; try contradiction.
  intros [->|H]; [now left | right; now apply IH].
Qed.

(** C8. When no node of the fetched document has the requested name, the
    name lookup tool raises nothing: it answers with the not-found record,
    whose list of alternatives holds the names of the first 20 top-level
    frames, so at most 20 names. *)
Theorem find_frame_by_name_alternatives
    (fuel : nat) (get_file : string -> result value)
    (file_url_or_key name file_key : string) (fetched : dict value) :
  extract_file_key file_url_or_key = Ok file_key ->
  get_file file_key = Ok (VDict fetched) ->
  is_node (get_default fetched "document" (VDict [])) = true ->
  (node_count (get_default fetched "document" (VDict [])) <= fuel)%nat ->
  (forall n, In n (preorder (get_default fetched "document" (VDict []))) ->
             name_is (PyStr.lower (PyStr.strip name)) n = false) ->
  exists names,
    find_frame_by_name fuel get_file file_url_or_key name
    = Some (Ok (VDict [ ("error", VStr ("Frame '" ++ name ++ "' not found"));
                        ("availableFrames", VList names);
                        ("hint", VStr "Try one of the available frame names listed above") ])) /\
    names = firstn 20 (map entry_name
                         (top_level_frames (get_default fetched "document" (VDict [])))) /\
    (List.length names <= 20)%nat.
Proof.
  intros Hkey Hfile Hdoc Hfuel Hnone.
  set (document := get_default fetched "document" (VDict [])) in *.
  exists (firstn 20 (map entry_name (top_level_frames document))).
  split; [|split; [reflexivity | apply firstn_le_length]].
  unfold find_frame_by_name. rewrite Hkey. cbn [bind]. rewrite Hfile.
  cbn [bind py_get]. fold document.
  rewrite (find_node_by_name_preorder document name fuel Hdoc Hfuel).
  assert (Hfind : List.find (name_is (PyStr.lower (PyStr.strip name))) (preorder document) = None).
  { destruct (List.find _ (preorder document)) as [n|] eqn:E; [|reflexivity].
    apply find_some in E as [Hn Hm]. rewrite (Hnone n Hn) in Hm. discriminate. }
  rewrite Hfind.
  rewrite (list_top_level_frames_nodes document Hdoc). cbn [bind].
  rewrite frame_names_entries.
  - cbn [bind]. now rewrite firstn_map.
  - intros e He. apply firstn_In_list in He.
    apply top_level_frames_entries in He as (r & p & n & _ & _ & _ & _ & ->).
    now exists p, n.
Qed.

(** A failed lookup on a file with 30 top-level frames offers 20 names. *)
Lemma find_frame_by_name_alternatives_witness :
  exists names,
    find_frame_by_name 40 (fun _ => Ok (VDict thirty_frames_file)) "AbC123" "Missing"
    = Some (Ok (not_found_reply "Missing" names)) /\
    List.length (top_level_frames thirty_frames_doc) = 30%nat /\
    List.length names = 20%nat.
Proof.
  destruct (find_frame_by_name_alternatives 40 (fun _ => Ok (VDict thirty_frames_file))
              "AbC123" "Missing" "AbC123" thirty_frames_file)
    as (names & Hreply & Hnames & _).
  - reflexivity.
  - reflexivity.
  - vm_compute; reflexivity.
  - apply Nat.leb_le. vm_compute; reflexivity.
  - intros n Hn.
    assert (Hall : forallb (fun n => negb (name_is (PyStr.lower (PyStr.strip "Missing")) n))
                     (preorder (get_default thirty_frames_file "document" (VDict []))) = true)
      by (vm_compute; reflexivity).
    rewrite forallb_forall in Hall. apply negb_true_iff. now apply Hall.
  - exists names. split; [exact Hreply|]. split; [vm_compute; reflexivity|].
    rewrite Hnames. vm_compute; reflexivity.
Defined.

(* ===================================================================== *)
(** * Node summary: properties *)

Lemma mapM_ok {A B : Type} (f : A -> result B) (l : list A) :
  (forall x, In x l -> exists y, f x = Ok y) ->
  exists ys, mapM f l = Ok ys /\ Forall2 (fun x y => f x = Ok y) l ys.
Proof.
  induction l as [|a l IH]; intros H.
  - exists []. split; [reflexivity | constructor].
  - destruct (H a (or_introl eq_refl)) as [b Hb].
    destruct IH as (ys & Hys & Hall); [intros x Hx; apply H; now right|].
    exists (b :: ys). simpl. rewrite Hb. cbn [bind]. rewrite Hys.
    split; [reflexivity | now constructor].
Qed.

Lemma slice_to_length (n : nat) (s : string) :
  String.length (PyStr.slice_to n s) = Nat.min n (String.length s).
Proof.
  unfold PyStr.slice_to. revert s.
  induction n as [|n IH]; intros [|c s]; simpl; try reflexivity.
  now rewrite IH.
Qed.

Lemma slice_to_prefix (n : nat) (s : string) :
  exists rest, s = PyStr.slice_to n s ++ rest.
Proof.
  unfold PyStr.slice_to. revert s.
  induction n as [|n IH]; intros [|c s]; simpl.
  - now exists "".
  - now exists (String c s).
  - now exists "".
  - destruct (IH s) as [rest Hr]. exists rest. now rewrite <- Hr.
Qed.

Lemma slice_to_short (n : nat) (s : string) :
  (String.length s <= n)%nat -> PyStr.slice_to n s = s.
Proof.
  unfold PyStr.slice_to. revert s.
  induction n as [|n IH]; intros [|c s]; simpl; intros H; try reflexivity; [lia|].
  rewrite IH; [reflexivity | lia].
Qed.

Lemma add_size_node (d s : dict value) :
  is_node (VDict d) = true ->
  exists s', add_size d s = Ok s' /\
             forall k, String.eqb "size" k = false -> dict_get k s' = dict_get k s.
Proof.
  intros H. unfold add_size, has_key, index.
  destruct (dict_get "absoluteBoundingBox" d) as [x|] eqn:E.
  - apply (is_node_field d _ _ H) in E.
    destruct x as [| | | | | |box]; try discriminate.
    cbn [bind py_get]. eexists. split; [reflexivity|].
    intros k Hk. now apply dict_get_set_neq.
  - now exists s.
Qed.

Lemma characters_node (d : dict value) :
  is_node (VDict d) = true ->
  get_default d "characters" (VStr "") = VStr (text_of d).
Proof.
  intros H. unfold get_default, text_of.
  destruct (dict_get "characters" d) as [x|] eqn:E; [|reflexivity].
  apply (is_node_field d _ _ H) in E. now destruct x.
Qed.

Lemma add_characters_node (d s : dict value) :
  is_node (VDict d) = true ->
  add_characters d s
  = Ok (if eq_str (get d "type") "TEXT"
        then dict_set "characters" (VStr (PyStr.slice_to 100 (text_of d))) s
        else s).
Proof.
  intros H. unfold add_characters. rewrite (characters_node d H).
  now destruct (eq_str (get d "type") "TEXT").
Qed.

(** The summary of a node without its children: it is there, it has no
    child fields, and a text node's content is cut at 100 characters. *)
Lemma summarize_node_flat_node (d : dict value) :
  is_node (VDict d) = true ->
  exists sd,
    summarize_node_flat (VDict d) = Ok sd /\
    dict_get "childCount" sd = None /\
    dict_get "children" sd = None /\
    dict_get "childrenTruncated" sd = None /\
    (eq_str (get d "type") "TEXT" = true ->
     dict_get "characters" sd = Some (VStr (PyStr.slice_to 100 (text_of d)))).
Proof.
  intros H. unfold summarize_node_flat.
  destruct (add_size_node d [("id", get d "id"); ("name", get d "name"); ("type", get d "type")] H)
    as (s1 & E1 & K1).
  rewrite E1. cbn [bind]. rewrite (add_characters_node d s1 H).
  eexists. split; [reflexivity|].
  destruct (eq_str (get d "type") "TEXT").
  - rewrite !dict_get_set_neq by reflexivity.
    rewrite !K1 by reflexivity.
    repeat split. intros _. apply dict_get_set_eq.
  - rewrite !K1 by reflexivity. repeat split. discriminate.
Qed.

Lemma summarize_node_false (node : value) :
  summarize_node node false = (s <- summarize_node_flat node ;; Ok (VDict s)).
Proof. reflexivity. Qed.

Lemma summarize_children_nodes (l : list value) :
  forallb is_node l = true ->
  exists cs,
    mapM (fun child => s <- summarize_node_flat child ;; Ok (VDict s)) l = Ok cs /\
    Forall2 (fun child sc => summarize_node child false = Ok sc) l cs /\
    forall sc, In sc cs ->
      exists sd, sc = VDict sd /\ dict_get "children" sd = None /\
                 dict_get "childCount" sd = None.
Proof.
  induction l as [|c l IH]; intros Hl.
  - exists []. split; [reflexivity|]. split; [constructor | contradiction].
  - simpl in Hl. apply andb_true_iff in Hl as [Hc Hl].
    destruct (is_node_dict _ Hc) as [d ->].
    destruct (summarize_node_flat_node d Hc) as (sd & E & K1 & K2 & _).
    destruct (IH Hl) as (cs & Ecs & Hall & Hkeys).
    exists (VDict sd :: cs). cbn [mapM]. rewrite E. cbn [bind]. rewrite Ecs.
    split; [reflexivity|]. split.
    + constructor; [|assumption]. rewrite summarize_node_false, E. reflexivity.
    + intros sc [<-|Hin]; [now exists sd | now apply Hkeys].
Qed.

Lemma forallb_firstn (n : nat) (l : list value) :
  forallb is_node l = true -> forallb is_node (firstn n l) = true.
Proof.
  intros H. apply forallb_forall. intros x Hx.
  rewrite forallb_forall in H. apply H. now apply firstn_In_list in Hx.
Qed.

(** The summary with children, written out: the flat summary, then
    [childCount], [children] and, over 10 children, [childrenTruncated]. *)
Lemma summarize_node_true_node (d : dict value) :
  is_node (VDict d) = true ->
  exists sd cs,
    summarize_node_flat (VDict d) = Ok sd /\
    mapM (fun child => s <- summarize_node_flat child ;; Ok (VDict s))
         (firstn 10 (children_of d)) = Ok cs /\
    summarize_node (VDict d) true
    = Ok (VDict
            (if (10 <? List.length (children_of d))%nat
             then dict_set "childrenTruncated" (VBool true)
                    (dict_set "children" (VList cs)
                       (dict_set "childCount"
                          (VInt (Z.of_nat (List.length (children_of d)))) sd))
             else dict_set "children" (VList cs)
                    (dict_set "childCount"
                       (VInt (Z.of_nat (List.length (children_of d)))) sd))).
Proof.
  intros H.
  destruct (summarize_node_flat_node d H) as (sd & E & _).
  destruct (is_node_children d H) as [Ech Hch].
  destruct (summarize_children_nodes _ (forallb_firstn 10 _ Hch)) as (cs & Ecs & _).
  exists sd, cs. split; [exact E|]. split; [exact Ecs|].
  unfold summarize_node. rewrite E. cbn [bind py_get]. rewrite Ech.
  cbn [bind py_len py_slice_to py_iter]. rewrite Ecs. cbn [bind].
  now destruct (10 <? List.length (children_of d))%nat.
Qed.

(** C1. Summarising a node with child inclusion gives a summary whose
    [childCount] is the number of children, whose [children] are the
    summaries of the first 10 children at most, in order, each made without
    child inclusion and so without child fields of its own, and in which
    [childrenTruncated] is set exactly when there are more than 10 children
    (the key is absent otherwise). *)
Theorem summarize_node_children (d : dict value) :
  is_node (VDict d) = true ->
  exists (s : dict value) (cs : list value),
    summarize_node (VDict d) true = Ok (VDict s) /\
    dict_get "childCount" s = Some (VInt (Z.of_nat (List.length (children_of d)))) /\
    dict_get "children" s = Some (VList cs) /\
    Forall2 (fun child sc => summarize_node child false = Ok sc)
            (firstn 10 (children_of d)) cs /\
    (forall sc, In sc cs ->
       exists sd, sc = VDict sd /\ dict_get "children" sd = None /\
                  dict_get "childCount" sd = None) /\
    List.length cs = Nat.min 10 (List.length (children_of d)) /\
    dict_get "childrenTruncated" s
    = (if (10 <? List.length (children_of d))%nat then Some (VBool true) else None).
Proof.
  intros H.
  destruct (summarize_node_true_node d H) as (sd & cs & E & Ecs & Es).
  destruct (summarize_node_flat_node d H) as (sd' & E' & _ & _ & K3 & _).
  rewrite E in E'. injection E' as <-.
  destruct (is_node_children d H) as [_ Hch].
  destruct (summarize_children_nodes _ (forallb_firstn 10 _ Hch)) as (cs' & Ecs' & Hall & Hkeys).
  rewrite Ecs in Ecs'. injection Ecs' as <-.
  eexists _, cs. split; [exact Es|].
  split; [|split; [|split; [exact Hall|split; [exact Hkeys|split]]]].
  - destruct (10 <? List.length (children_of d))%nat;
      rewrite !dict_get_set_neq by reflexivity; apply dict_get_set_eq.
  - destruct (10 <? List.length (children_of d))%nat;
      rewrite ?dict_get_set_neq by reflexivity; apply dict_get_set_eq.
  - rewrite <- (Forall2_length Hall). apply length_firstn.
  - destruct (10 <? List.length (children_of d))%nat.
    + apply dict_get_set_eq.
    + rewrite !dict_get_set_neq by reflexivity. exact K3.
Qed.

(** A node with 1000 children gives 10 child summaries, a child count of
    1000 and the flag; a node with 5 children gives all 5 and no flag. *)
Lemma summarize_node_children_witness :
  (exists s cs,
      summarize_node (VDict (frame_with 1000)) true = Ok (VDict s) /\
      dict_get "childCount" s = Some (VInt 1000) /\
      dict_get "children" s = Some (VList cs) /\ List.length cs = 10%nat /\
      dict_get "childrenTruncated" s = Some (VBool true)) /\
  (exists s cs,
      summarize_node (VDict (frame_with 5)) true = Ok (VDict s) /\
      dict_get "childCount" s = Some (VInt 5) /\
      dict_get "children" s = Some (VList cs) /\ List.length cs = 5%nat /\
      dict_get "childrenTruncated" s = None).
Proof.
  split.
  - destruct (summarize_node_children (frame_with 1000)) as (s & cs & Hs & Hn & Hc & _ & _ & Hl & Ht);
      [vm_compute; reflexivity|].
    exists s, cs. repeat split; assumption.
  - destruct (summarize_node_children (frame_with 5)) as (s & cs & Hs & Hn & Hc & _ & _ & Hl & Ht);
      [vm_compute; reflexivity|].
    exists s, cs. repeat split; assumption.
Defined.

(** C7. The summary of a text node, with or without child inclusion,
    carries under [characters] the first 100 characters of the node's
    content and nothing more: a prefix of the content of length
    min(100, length), the whole content when it has at most 100
    characters. *)
Theorem summarize_node_text (d : dict value) (include_children : bool) :
  is_node (VDict d) = true ->
  eq_str (get d "type") "TEXT" = true ->
  exists s : dict value,
    summarize_node (VDict d) include_children = Ok (VDict s) /\
    dict_get "characters" s = Some (VStr (PyStr.slice_to 100 (text_of d))) /\
    String.length (PyStr.slice_to 100 (text_of d)) = Nat.min 100 (String.length (text_of d)) /\
    (exists rest, text_of d = PyStr.slice_to 100 (text_of d) ++ rest) /\
    ((String.length (text_of d) <= 100)%nat -> PyStr.slice_to 100 (text_of d) = text_of d).
Proof.
  intros H Ht.
  destruct (summarize_node_flat_node d H) as (sd & E & _ & _ & _ & Kc).
  specialize (Kc Ht).
  assert (Hs : exists s, summarize_node (VDict d) include_children = Ok (VDict s) /\
                         dict_get "characters" s = Some (VStr (PyStr.slice_to 100 (text_of d)))).
  { destruct include_children.
    - destruct (summarize_node_true_node d H) as (sd' & cs & E' & _ & Es).
      rewrite E in E'. injection E' as <-.
      eexists. split; [exact Es|].
      destruct (10 <? List.length (children_of d))%nat;
        rewrite !dict_get_set_neq by reflexivity; exact Kc.
    - exists sd. split; [|exact Kc].
      rewrite summarize_node_false, E. reflexivity. }
  destruct Hs as (s & Es & Ks). exists s.
  split; [exact Es|]. split; [exact Ks|].
  split; [apply slice_to_length|].
  split; [apply slice_to_prefix | apply slice_to_short].
Qed.

(** A text node with 150 characters yields exactly its first 100. *)
Lemma summarize_node_text_witness :
  String.length (text_of long_text) = 150%nat /\
  exists s : dict value,
    summarize_node (VDict long_text) false = Ok (VDict s) /\
    dict_get "characters" s = Some (VStr (PyStr.slice_to 100 (text_of long_text))) /\
    PyStr.slice_to 100 (text_of long_text)
    = repeat_string "0123456789abcde" 6 ++ "0123456789" /\
    String.length (PyStr.slice_to 100 (text_of long_text)) = 100%nat.
Proof.
  split; [reflexivity|].
  destruct (summarize_node_text long_text false) as (s & Hs & Hc & Hl & _);
    [reflexivity | reflexivity |].
  exists s. repeat split; assumption || reflexivity.
Defined.

(* ===================================================================== *)
(** * Node identifier: properties *)

Lemma all_chars_app (p : ascii -> bool) (a b : string) :
  all_chars p (a ++ b) = all_chars p a && all_chars p b.
Proof.
  induction a as [|c a IH]; simpl; [reflexivity|].
  now rewrite IH, andb_assoc.
Qed.

Lemma take_while_all (p : ascii -> bool) (s : string) :
  all_chars p (take_while p s) = true.
Proof.
  induction s as [|c s IH]; simpl; [reflexivity|].
  destruct (p c) eqn:E; simpl; [now rewrite E | reflexivity].
Qed.

Lemma take_while_value (v tail : string) :
  all_chars not_amp v = true -> ends_value tail = true ->
  take_while not_amp (v ++ tail) = v.
Proof.
  intros Hv Ht. induction v as [|c v IH].
  - destruct tail as [|c tail]; [reflexivity|].
    unfold ends_value in Ht. cbn [append take_while]. unfold not_amp.
    now rewrite Ht.
  - cbn [all_chars] in Hv. apply andb_true_iff in Hv as [Hc Hv].
    cbn [append take_while]. rewrite Hc. now rewrite IH.
Qed.

Lemma match_node_id_here_value (s v : string) :
  match_node_id_here s = Some v -> v <> "" /\ all_chars not_amp v = true.
Proof.
  unfold match_node_id_here.
  destruct (Re.literal "node-id=" s) as [r|]; [|discriminate].
  pose proof (take_while_all not_amp r) as Hall.
  destruct (take_while not_amp r) as [|c w]; [discriminate|].
  intros [= <-]. split; [discriminate | exact Hall].
Qed.

Lemma search_node_id_cons (c : ascii) (s : string) :
  search_node_id (String c s) =
  match match_node_id_here (String c s) with
  | Some v => Some v
  | None => search_node_id s
  end.
Proof. reflexivity. Qed.

Lemma search_node_id_value (s v : string) :
  search_node_id s = Some v -> v <> "" /\ all_chars not_amp v = true.
Proof.
  induction s as [|c s IH].
  - discriminate.
  - rewrite search_node_id_cons.
    destruct (match_node_id_here (String c s)) as [w|] eqn:E; [|exact IH].
    intros [= <-]. now apply match_node_id_here_value in E.
Qed.

Lemma dash_to_colon_no_dash (s : string) :
  all_chars not_dash (dash_to_colon s) = true.
Proof.
  induction s as [|c s IH]; simpl; [reflexivity|].
  rewrite IH, andb_true_r. unfold not_dash.
  destruct (Ascii.eqb c "-") eqn:E; [reflexivity | now rewrite E].
Qed.

Lemma dash_to_colon_no_amp (s : string) :
  all_chars not_amp s = true -> all_chars not_amp (dash_to_colon s) = true.
Proof.
  induction s as [|c s IH]; simpl; [reflexivity|].
  rewrite andb_true_iff. intros [Hc Hs]. rewrite (IH Hs), andb_true_r.
  now destruct (Ascii.eqb c "-").
Qed.

Lemma dash_to_colon_fixed (s : string) :
  all_chars not_dash s = true -> dash_to_colon s = s.
Proof.
  induction s as [|c s IH]; simpl; [reflexivity|].
  rewrite andb_true_iff. intros [Hc Hs]. rewrite (IH Hs).
  unfold not_dash in Hc. apply negb_true_iff in Hc. now rewrite Hc.
Qed.

Lemma dash_to_colon_idempotent (s : string) :
  dash_to_colon (dash_to_colon s) = dash_to_colon s.
Proof. apply dash_to_colon_fixed, dash_to_colon_no_dash. Qed.

(** X1. An identifier [extract_node_id] returns is never empty, holds no
    dash and no ampersand, and is left unchanged by a further replacement
    of dashes by colons. *)
Theorem extract_node_id_normal (url id : string) :
  extract_node_id url = Some id ->
  id <> "" /\ all_chars not_dash id = true /\ all_chars not_amp id = true /\
  dash_to_colon id = id.
Proof.
  unfold extract_node_id.
  destruct (search_node_id url) as [v|] eqn:E; [|discriminate].
  intros [= <-]. apply search_node_id_value in E as [Hne Hamp].
  split; [destruct v; [congruence | discriminate]|].
  split; [apply dash_to_colon_no_dash|].
  split; [now apply dash_to_colon_no_amp | apply dash_to_colon_idempotent].
Qed.

Lemma extract_node_id_normal_witness :
  "12:34" <> "" /\ all_chars not_dash "12:34" = true /\
  all_chars not_amp "12:34" = true /\ dash_to_colon "12:34" = "12:34".
Proof.
  apply (extract_node_id_normal
           "https://www.figma.com/design/AbC123/Name?node-id=12-34&t=xyz" "12:34").
  reflexivity.
Defined.

Lemma before_equals_app (h t : string) :
  all_chars not_equals h = true ->
  before_equals (h ++ t) = (String.length h + before_equals t)%nat.
Proof.
  induction h as [|c h IH]; simpl; [reflexivity|].
  rewrite andb_true_iff. intros [Hc Hh]. rewrite Hc. now rewrite IH.
Qed.

Lemma search_node_id_skip (base t : string) :
  all_chars not_equals base = true ->
  search_node_id (base ++ "node-id=" ++ t) = search_node_id ("node-id=" ++ t).
Proof.
  induction base as [|c base IH]; intros Hb; [reflexivity|].
  assert (Hm : match_node_id_here (String c base ++ "node-id=" ++ t) = None).
  { unfold match_node_id_here.
    destruct (Re.literal "node-id=" (String c base ++ "node-id=" ++ t)) as [r|] eqn:E;
      [|reflexivity].
    apply literal_Some in E. apply (f_equal before_equals) in E.
    rewrite before_equals_app in E by assumption. simpl in E. lia. }
  change (String c base ++ "node-id=" ++ t) with (String c (base ++ "node-id=" ++ t)) in *.
  rewrite search_node_id_cons, Hm. apply IH.
  simpl in Hb. now apply andb_true_iff in Hb.
Qed.

Lemma search_node_id_no_equals (url : string) :
  all_chars not_equals url = true -> search_node_id url = None.
Proof.
  assert (Hm : forall t, all_chars not_equals t = true -> match_node_id_here t = None).
  { intros t Ht. unfold match_node_id_here.
    destruct (Re.literal "node-id=" t) as [r|] eqn:E; [|reflexivity].
    apply literal_Some in E. subst t. discriminate. }
  induction url as [|c url IH]; intros Hu.
  - reflexivity.
  - rewrite search_node_id_cons, (Hm _ Hu). apply IH.
    simpl in Hu. now apply andb_true_iff in Hu.
Qed.

Lemma search_node_id_parameter (base v tail : string) :
  all_chars not_equals base = true ->
  v <> "" -> all_chars not_amp v = true -> ends_value tail = true ->
  search_node_id (base ++ "node-id=" ++ v ++ tail) = Some v.
Proof.
  intros Hb Hne Hv Ht.
  rewrite search_node_id_skip by assumption.
  change ("node-id=" ++ v ++ tail) with (String "n" ("ode-id=" ++ v ++ tail)).
  rewrite search_node_id_cons.
  change (String "n" ("ode-id=" ++ v ++ tail)) with ("node-id=" ++ v ++ tail).
  unfold match_node_id_here. rewrite literal_app.
  rewrite (take_while_value v tail Hv Ht).
  destruct v; [congruence | reflexivity].
Qed.

(** X2. When the text in front of the first [node-id=] holds no equals
    sign and the parameter has a non-empty value [v] that runs to the end
    or to the next ampersand, [extract_node_id] returns [v] with its dashes
    replaced by colons, and [v] itself when it has no dash; a reference
    string without any equals sign has no node identifier. *)
Theorem extract_node_id_parameter (base v tail : string) :
  all_chars not_equals base = true ->
  v <> "" -> all_chars not_amp v = true -> ends_value tail = true ->
  extract_node_id (base ++ "node-id=" ++ v ++ tail) = Some (dash_to_colon v) /\
  (all_chars not_dash v = true ->
   extract_node_id (base ++ "node-id=" ++ v ++ tail) = Some v) /\
  extract_node_id base = None.
Proof.
  intros Hb Hne Hv Ht. unfold extract_node_id.
  rewrite (search_node_id_parameter base v tail Hb Hne Hv Ht).
  split; [reflexivity|]. split.
  - intros Hd. now rewrite dash_to_colon_fixed.
  - now rewrite search_node_id_no_equals.
Qed.

Lemma extract_node_id_parameter_witness :
  extract_node_id ("https://www.figma.com/design/AbC123/Name?" ++ "node-id=" ++ "12-34" ++ "&t=xyz")
  = Some "12:34".
Proof.
  apply (extract_node_id_parameter "https://www.figma.com/design/AbC123/Name?" "12-34" "&t=xyz");
    [reflexivity | discriminate | reflexivity | reflexivity].
Defined.

(* ===================================================================== *)
(** * Locator parser: further properties *)

Lemma take_alnum_all (s : string) :
  all_chars Re.is_alnum (Re.take_alnum s) = true.
Proof.
  induction s as [|c s IH]; simpl; [reflexivity|].
  destruct (Re.is_alnum c) eqn:E; simpl; [now rewrite E | reflexivity].
Qed.

Lemma match_here_valid (s k : string) :
  Re.match_here s = Some k -> valid_key k = true.
Proof.
  unfold Re.match_here.
  destruct (Re.literal "figma.com/" s) as [s1|]; [|discriminate].
  destruct (Re.alternatives Re.routes s1) as [s2|]; [|discriminate].
  destruct (Re.literal "/" s2) as [s3|]; [|discriminate].
  pose proof (take_alnum_all s3) as Hall.
  destruct (Re.take_alnum s3) as [|c w]; [discriminate|].
  intros [= <-]. unfold valid_key. now rewrite Hall.
Qed.

Lemma search_valid (s k : string) :
  Re.search s = Some k -> valid_key k = true.
Proof.
  induction s as [|c s IH].
  - discriminate.
  - rewrite search_cons.
    destruct (Re.match_here (String c s)) as [w|] eqn:E; [|exact IH].
    intros [= <-]. now apply match_here_valid in E.
Qed.

(** X3. A document identifier that [extract_file_key] takes out of a
    reference string starting with [http] is a non-empty run of ASCII
    letters and digits. *)
Theorem extract_file_key_url_key (s k : string) :
  PyStr.startswith (PyStr.strip s) "http" = true ->
  extract_file_key s = Ok k ->
  valid_key k = true.
Proof.
  intros Hp. unfold extract_file_key. rewrite Hp. simpl negb. cbv iota.
  destruct (Re.search (PyStr.strip s)) as [key|] eqn:E; [|discriminate].
  intros [= <-]. now apply search_valid in E.
Qed.

Lemma extract_file_key_url_key_witness : valid_key "AbC123" = true.
Proof.
  apply (extract_file_key_url_key
           " https://www.figma.com/board/AbC123-not-key/Name " "AbC123");
    reflexivity.
Defined.

Lemma alnum_not_space (c : ascii) :
  Re.is_alnum c = true -> PyStr.isspace c = false.
Proof.
  destruct c as [b0 b1 b2 b3 b4 b5 b6 b7].
  destruct b0, b1, b2, b3, b4, b5, b6, b7; vm_compute; congruence.
Qed.

Lemma last_char_all (p : ascii -> bool) (c : ascii) (s : string) :
  p c = true -> all_chars p s = true -> p (last_char c s) = true.
Proof.
  revert c. induction s as [|c' s IH]; intros c Hc Hs; [exact Hc|].
  simpl in *. apply andb_true_iff in Hs as [Hc' Hs]. now apply IH.
Qed.

Lemma strip_alnum (K : string) :
  all_chars Re.is_alnum K = true -> PyStr.strip K = K.
Proof.
  intros HK. apply strip_no_outer_space.
  destruct K as [|c K]; [reflexivity|].
  simpl in HK. apply andb_true_iff in HK as [Hc HK].
  unfold no_outer_space.
  rewrite (alnum_not_space c Hc).
  rewrite (alnum_not_space _ (last_char_all Re.is_alnum c K Hc HK)).
  reflexivity.
Qed.

Lemma search_alnum (K : string) :
  all_chars Re.is_alnum K = true -> Re.search K = None.
Proof.
  assert (Hm : forall t, all_chars Re.is_alnum t = true -> Re.match_here t = None).
  { intros t Ht. unfold Re.match_here.
    destruct (Re.literal "figma.com/" t) as [r|] eqn:E; [|reflexivity].
    apply literal_Some in E. subst t. discriminate. }
  induction K as [|c K IH]; intros HK.
  - reflexivity.
  - rewrite search_cons, (Hm _ HK). apply IH.
    simpl in HK. now apply andb_true_iff in HK.
Qed.

(** X4. A bare document key that itself starts with [http] is taken for a
    URL and refused: [extract_file_key] raises [ValueError] on it. *)
Theorem extract_file_key_http_key (K : string) :
  valid_key K = true -> PyStr.startswith K "http" = true ->
  extract_file_key K = Raise ValueError.
Proof.
  unfold valid_key. rewrite andb_true_iff. intros [_ HK] Hp.
  unfold extract_file_key. rewrite (strip_alnum K HK), Hp. simpl negb. cbv iota.
  now rewrite (search_alnum K HK).
Qed.

Lemma extract_file_key_http_key_witness :
  extract_file_key "httpAbC123" = Raise ValueError.
Proof.
  apply (extract_file_key_http_key "httpAbC123"); reflexivity.
Defined.

(* ===================================================================== *)
(** * URL tool and node tool: properties *)

Lemma alnum_not_equals (c : ascii) :
  Re.is_alnum c = true -> not_equals c = true.
Proof.
  destruct c as [b0 b1 b2 b3 b4 b5 b6 b7].
  destruct b0, b1, b2, b3, b4, b5, b6, b7; vm_compute; congruence.
Qed.

Lemma all_chars_impl (p q : ascii -> bool) (s : string) :
  (forall c, p c = true -> q c = true) ->
  all_chars p s = true -> all_chars q s = true.
Proof.
  intros Hpq. induction s as [|c s IH]; simpl; [reflexivity|].
  rewrite !andb_true_iff. intros [Hc Hs]. split; [now apply Hpq | now apply IH].
Qed.

Lemma route_not_equals (P : string) :
  In P Re.routes -> all_chars not_equals P = true.
Proof.
  simpl. intros [<-|[<-|[<-|[<-|[]]]]]; reflexivity.
Qed.

(** The part of a Figma reference string in front of its [node-id]
    parameter holds no equals sign. *)
Lemma locator_base_not_equals (h P K name : string) :
  In P Re.routes -> valid_key K = true ->
  all_chars not_equals h = true -> all_chars not_equals name = true ->
  all_chars not_equals
    ("https://" ++ (h ++ "figma.com") ++ "/" ++ P ++ "/" ++ K ++ "/" ++ name ++ "?") = true.
Proof.
  intros HP HK Hh Hn. unfold valid_key in HK. apply andb_true_iff in HK as [_ HK].
  rewrite !all_chars_app.
  rewrite Hh, Hn, (route_not_equals P HP).
  rewrite (all_chars_impl _ _ K alnum_not_equals HK).
  reflexivity.
Qed.

Lemma locator_parameter (h P K name v tail : string) :
  locator (h ++ "figma.com") P K (name ++ "?node-id=" ++ v ++ tail)
  = ("https://" ++ (h ++ "figma.com") ++ "/" ++ P ++ "/" ++ K ++ "/" ++ name ++ "?")
    ++ "node-id=" ++ v ++ tail.
Proof.
  unfold locator. now rewrite !string_app_assoc.
Qed.

(** X5. On a Figma reference string [https://host/P/K/name?node-id=v...]
    ([host] ending in [figma.com], [P] a supported route, [K] a valid key,
    no equals sign in front of the parameter, [v] non-empty and running to
    the end or to the next ampersand) [parse_figma_url] answers with the
    key [K], the node identifier [v] with colons for dashes, and the
    reference string itself. *)
Theorem parse_figma_url_figma (h P K name v tail : string) :
  In P Re.routes -> valid_key K = true ->
  all_chars not_slash h = true -> all_chars not_equals h = true ->
  all_chars not_equals name = true ->
  v <> "" -> all_chars not_amp v = true -> ends_value tail = true ->
  parse_figma_url (locator (h ++ "figma.com") P K (name ++ "?node-id=" ++ v ++ tail))
  = Ok (VDict [ ("fileKey", VStr K);
                ("nodeId", VStr (dash_to_colon v));
                ("url", VStr (locator (h ++ "figma.com") P K
                                (name ++ "?node-id=" ++ v ++ tail))) ]).
Proof.
  intros HP HK Hs He Hn Hne Hv Ht.
  unfold parse_figma_url.
  assert (Ek : extract_file_key (locator (h ++ "figma.com") P K
                                   (name ++ "?node-id=" ++ v ++ tail)) = Ok K).
  { unfold extract_file_key. rewrite strip_locator.
    assert (Hp : PyStr.startswith
                   (locator (h ++ "figma.com") P K
                      (PyStr.rstrip (name ++ "?node-id=" ++ v ++ tail))) "http" = true)
      by reflexivity.
    rewrite Hp. simpl negb. cbv iota. now rewrite search_locator. }
  rewrite Ek. unfold extract_node_id.
  rewrite locator_parameter at 1.
  rewrite search_node_id_parameter;
    [reflexivity | now apply locator_base_not_equals | assumption ..].
Qed.

Lemma parse_figma_url_figma_witness :
  parse_figma_url (locator ("www." ++ "figma.com") "design" "AbC123"
                     ("Name" ++ "?node-id=" ++ "12-34" ++ "&t=xyz"))
  = Ok (VDict [ ("fileKey", VStr "AbC123");
                ("nodeId", VStr "12:34");
                ("url", VStr "https://www.figma.com/design/AbC123/Name?node-id=12-34&t=xyz") ]).
Proof.
  apply (parse_figma_url_figma "www." "design" "AbC123" "Name" "12-34" "&t=xyz");
    try reflexivity.
  - right; left; reflexivity.
  - discriminate.
Defined.

(** X6. For [get_figma_node] the dash and the colon spelling of a node
    identifier are interchangeable: both send the same request and look up
    the same key, so they give the same result, except that the not-found
    record repeats the identifier as it was given. *)
Theorem get_figma_node_spelling
    (get_file_nodes : string -> list string -> result value)
    (file_url_or_key node_id : string) :
  get_figma_node get_file_nodes file_url_or_key (dash_to_colon node_id)
  = get_figma_node get_file_nodes file_url_or_key node_id
  \/ (get_figma_node get_file_nodes file_url_or_key node_id
      = Ok (node_not_found node_id) /\
      get_figma_node get_file_nodes file_url_or_key (dash_to_colon node_id)
      = Ok (node_not_found (dash_to_colon node_id))).
Proof.
  unfold get_figma_node. rewrite dash_to_colon_idempotent.
  destruct (extract_file_key file_url_or_key) as [key|e]; [|now left]. cbn [bind].
  destruct (get_file_nodes key [dash_to_colon node_id]) as [fetched|e]; [|now left].
  cbn [bind].
  destruct (py_get fetched "nodes" (VDict [])) as [nodes|e]; [|now left]. cbn [bind].
  destruct (py_get nodes (dash_to_colon node_id) VNone) as [node_data|e]; [|now left].
  cbn [bind].
  destruct (truthy node_data); [now left | now right].
Qed.

(* ===================================================================== *)
(** * Find by identifier: properties *)

Lemma find_id_loop_step (node_id : string) (fuel : nat) (current : value) (stack : list value) :
  find_id_loop node_id (S fuel) (current :: stack) =
  if negb (truthy current) then find_id_loop node_id fuel stack
  else
    match current with
    | VDict d =>
        if eq_str (get d "id") node_id then Some (Ok (Some current))
        else
          match py_reversed (get_default d "children" (VList [])) with
          | Raise e => Some (Raise e)
          | Ok cs => find_id_loop node_id fuel (push_all cs stack)
          end
    | _ => Some (Raise AttributeError)
    end.
Proof. reflexivity. Qed.

Lemma find_id_loop_preorder (node_id : string) (fuel : nat) :
  forall stack : list value,
    forallb is_node stack = true ->
    (List.length (flat_map preorder stack) <= fuel)%nat ->
    find_id_loop node_id fuel stack
    = Some (Ok (List.find (id_is node_id) (flat_map preorder stack))).
Proof.
  induction fuel as [|fuel IH]; intros [|current stack] Hs Hf;
    try reflexivity;
    simpl in Hs; apply andb_true_iff in Hs as [Hc Hs];
    destruct (is_node_dict _ Hc) as [d ->];
    rewrite flat_map_preorder_cons in *; simpl in Hf; [lia|].
  rewrite find_id_loop_step.
  destruct d as [|kv d'] eqn:Ed.
  - simpl. apply IH; [assumption | simpl in Hf; lia].
  - rewrite <- Ed in *. replace (truthy (VDict d)) with true by (now subst d).
    simpl negb. cbv iota. cbn [List.find].
    change (id_is node_id (VDict d)) with (eq_str (get d "id") node_id).
    destruct (eq_str (get d "id") node_id); [reflexivity|].
    destruct (is_node_children d Hc) as [Ech Hch].
    rewrite Ech.
    change (py_reversed (VList (children_of d))) with (Ok (rev (children_of d))).
    cbv iota. rewrite push_all_rev.
    rewrite IH.
    + now rewrite flat_map_app.
    + rewrite forallb_app. now rewrite Hch, Hs.
    + rewrite flat_map_app. lia.
Qed.

Lemma find_node_by_id_preorder (root : value) (node_id : string) (fuel : nat) :
  is_node root = true -> (node_count root <= fuel)%nat ->
  find_node_by_id fuel root node_id
  = Some (Ok (List.find (id_is node_id) (preorder root))).
Proof.
  intros Hr Hf. unfold find_node_by_id.
  rewrite find_id_loop_preorder.
  - simpl. now rewrite app_nil_r.
  - simpl. now rewrite Hr.
  - simpl. rewrite app_nil_r. exact Hf.
Qed.

(** X7. On every tree of nodes [find_node_by_id] (given fuel for one step
    per node) returns the first node in document order whose [id] is the
    requested string, compared as it stands, and the not-found value when
    there is none; a node whose [id] no other node of the tree shares is
    the one its [id] retrieves. *)
Theorem find_node_by_id_first_match (root : value) (node_id : string) (fuel : nat) :
  is_node root = true -> (node_count root <= fuel)%nat ->
  find_node_by_id fuel root node_id
  = Some (Ok (List.find (id_is node_id) (preorder root))) /\
  (find_node_by_id fuel root node_id = Some (Ok None) <->
   forall n, In n (preorder root) -> id_is node_id n = false) /\
  (forall n, In n (preorder root) -> id_is node_id n = true ->
     (forall m, In m (preorder root) -> id_is node_id m = true -> m = n) ->
     find_node_by_id fuel root node_id = Some (Ok (Some n))).
Proof.
  intros Hr Hf. rewrite (find_node_by_id_preorder root node_id fuel Hr Hf).
  split; [reflexivity|]. split; [split|].
  - intros [= E] n Hn. exact (find_none _ _ E n Hn).
  - intros Hall.
    destruct (List.find _ (preorder root)) as [n|] eqn:E; [|reflexivity].
    apply find_some in E as [Hn Hm]. rewrite (Hall n Hn) in Hm. discriminate.
  - intros n Hn Hid Huniq.
    destruct (List.find (id_is node_id) (preorder root)) as [m|] eqn:E.
    + apply find_some in E as [Hm Hmid]. now rewrite (Huniq m Hm Hmid).
    + rewrite (find_none _ _ E n Hn) in Hid. discriminate.
Qed.

Lemma find_node_by_id_first_match_witness :
  find_node_by_id (node_count nested_doc) nested_doc "1:3"
  = Some (Ok (Some (VDict [ ("id", VStr "1:3"); ("name", VStr "Inner");
                            ("type", VStr "FRAME") ]))) /\
  find_node_by_id (node_count nested_doc) nested_doc "1-3" = Some (Ok None).
Proof.
  split;
    exact (proj1 (find_node_by_id_first_match nested_doc _ (node_count nested_doc)
                    eq_refl (le_n _))).
Defined.

(* ===================================================================== *)
(** * All components: properties *)

Lemma is_component_type_names (t : value) :
  is_component_type t = true <->
  t = VStr "COMPONENT" \/ t = VStr "COMPONENT_SET" \/ t = VStr "INSTANCE".
Proof.
  unfold is_component_type. rewrite !orb_true_iff, !eq_str_true. tauto.
Qed.

Lemma depth_node (d : dict value) :
  depth (VDict d) = S (max_depth (children_of d)).
Proof.
  simpl. f_equal. unfold children_of, max_depth.
  induction d as [|[k x] d IH]; [reflexivity|].
  simpl dict_get. destruct (String.eqb k "children"); [|exact IH].
  destruct x; reflexivity.
Qed.

Lemma walk_step (limit : nat) (d : dict value) (components : list value) :
  walk (S limit) (VDict d) components =
  match py_iter (get_default d "children" (VList [])) with
  | Raise e => Raise e
  | Ok children =>
      walk_each (walk limit) children
        (if is_component_type (get_default d "type" (VStr ""))
         then (components ++ [component_entry d])%list
         else components)
  end.
Proof. reflexivity. Qed.

Lemma components_of_app (a b : list value) :
  components_of (a ++ b) = (components_of a ++ components_of b)%list.
Proof. apply flat_map_app. Qed.

Lemma walk_each_nodes (limit : nat) :
  (forall node components,
      is_node node = true ->
      ((depth node <= limit)%nat ->
       walk limit node components
       = Ok (components ++ components_of (preorder node))%list) /\
      ((limit < depth node)%nat ->
       walk limit node components = Raise RecursionError)) ->
  forall l components,
    forallb is_node l = true ->
    ((max_depth l <= limit)%nat ->
     walk_each (walk limit) l components
     = Ok (components ++ components_of (flat_map preorder l))%list) /\
    ((limit < max_depth l)%nat ->
     walk_each (walk limit) l components = Raise RecursionError).
Proof.
  intros Hw. induction l as [|c l IH]; intros components Hl.
  - split; intros H; simpl in *; [now rewrite app_nil_r | lia].
  - simpl in Hl. apply andb_true_iff in Hl as [Hc Hl].
    destruct (Hw c components Hc) as [Hok Hdeep].
    change (max_depth (c :: l)) with (Nat.max (depth c) (max_depth l)).
    cbn [walk_each]. fold (walk_each (walk limit)).
    destruct (Nat.le_gt_cases (depth c) limit) as [Hle|Hgt].
    + rewrite (Hok Hle).
      destruct (IH (components ++ components_of (preorder c))%list Hl) as [IHok IHdeep].
      split; intros H.
      * rewrite IHok by lia. simpl flat_map.
        now rewrite components_of_app, app_assoc.
      * apply IHdeep. lia.
    + rewrite (Hdeep Hgt). split; intros H; [lia | reflexivity].
Qed.

(** On a tree of nodes [walk] appends the records in document order when
    the tree is no deeper than the recursion limit, and raises
    [RecursionError] when it is. *)
Lemma walk_nodes (limit : nat) :
  forall node components,
    is_node node = true ->
    ((depth node <= limit)%nat ->
     walk limit node components
     = Ok (components ++ components_of (preorder node))%list) /\
    ((limit < depth node)%nat ->
     walk limit node components = Raise RecursionError).
Proof.
  induction limit as [|limit IH]; intros node components Hn;
    destruct (is_node_dict _ Hn) as [d ->]; rewrite depth_node.
  - split; intros H; [lia | reflexivity].
  - rewrite walk_step.
    destruct (is_node_children d Hn) as [Ech Hch].
    rewrite Ech. cbn [py_iter].
    destruct (walk_each_nodes limit IH (children_of d)
                (if is_component_type (get_default d "type" (VStr ""))
                 then (components ++ [component_entry d])%list
                 else components) Hch) as [Hok Hdeep].
    split; intros H.
    + rewrite Hok by lia. rewrite preorder_node.
      change (components_of (VDict d :: flat_map preorder (children_of d)))
        with ((if is_component_type (get_default d "type" (VStr ""))
               then [component_entry d] else [])
              ++ components_of (flat_map preorder (children_of d)))%list.
      destruct (is_component_type (get_default d "type" (VStr ""))).
      * now rewrite <- app_assoc.
      * reflexivity.
    + apply Hdeep. lia.
Qed.

Lemma components_of_entries (nodes : list value) (e : value) :
  In e (components_of nodes) <->
  exists n, In (VDict n) nodes /\
            (get_default n "type" (VStr "") = VStr "COMPONENT" \/
             get_default n "type" (VStr "") = VStr "COMPONENT_SET" \/
             get_default n "type" (VStr "") = VStr "INSTANCE") /\
            e = VDict [ ("id", get_default n "id" (VStr ""));
                        ("name", get_default n "name" (VStr "Unnamed"));
                        ("type", get_default n "type" (VStr "")) ].
Proof.
  unfold components_of. rewrite in_flat_map. split.
  - intros (v & Hv & He). destruct v as [| | | | | |n]; try contradiction.
    destruct (is_component_type (get_default n "type" (VStr ""))) eqn:Et;
      [|contradiction].
    destruct He as [<-|[]]. exists n.
    split; [assumption|]. split; [now apply is_component_type_names | reflexivity].
  - intros (n & Hn & Ht & ->). exists (VDict n). split; [assumption|].
    apply is_component_type_names in Ht. rewrite Ht. now left.
Qed.

(** X8. On every tree of nodes that is no deeper than the number of nested
    calls the interpreter allows, [list_all_components] returns, in
    document order, one record with id, name and type for every node whose
    type is COMPONENT, COMPONENT_SET or INSTANCE, at any depth, and nothing
    else; on a deeper tree it raises [RecursionError]. *)
Theorem list_all_components_preorder (root : value) (limit : nat) :
  is_node root = true ->
  ((depth root <= limit)%nat ->
   list_all_components limit root = Ok (components_of (preorder root))) /\
  ((limit < depth root)%nat ->
   list_all_components limit root = Raise RecursionError) /\
  (forall e, In e (components_of (preorder root)) <->
     exists n, In (VDict n) (preorder root) /\
               (get_default n "type" (VStr "") = VStr "COMPONENT" \/
                get_default n "type" (VStr "") = VStr "COMPONENT_SET" \/
                get_default n "type" (VStr "") = VStr "INSTANCE") /\
               e = VDict [ ("id", get_default n "id" (VStr ""));
                           ("name", get_default n "name" (VStr "Unnamed"));
                           ("type", get_default n "type" (VStr "")) ]).
Proof.
  intros Hr. unfold list_all_components.
  destruct (walk_nodes limit root [] Hr) as [Hok Hdeep].
  split; [exact Hok|]. split; [exact Hdeep | apply components_of_entries].
Qed.

(** The components of [mixed_doc], which is four levels deep, with a limit
    of four nested calls and with a limit of three. *)
Lemma list_all_components_preorder_witness :
  list_all_components 4 mixed_doc
  = Ok [ VDict [("id", VStr "1:5"); ("name", VStr "Button"); ("type", VStr "COMPONENT")];
         VDict [("id", VStr "1:6"); ("name", VStr "Buttons"); ("type", VStr "COMPONENT_SET")];
         VDict [("id", VStr "1:8"); ("name", VStr "Button"); ("type", VStr "INSTANCE")] ] /\
  list_all_components 3 mixed_doc = Raise RecursionError.
Proof.
  split.
  - apply (list_all_components_preorder mixed_doc 4 eq_refl). apply Nat.leb_le. reflexivity.
  - apply (list_all_components_preorder mixed_doc 3 eq_refl). apply Nat.ltb_lt. reflexivity.
Defined.

Lemma preorder_child (d : dict value) (c : value) :
  In c (children_of d) -> incl (preorder c) (preorder (VDict d)).
Proof.
  intros Hc x Hx. rewrite preorder_node. right.
  apply in_flat_map. now exists c.
Qed.

Lemma preorder_self (d : dict value) : In (VDict d) (preorder (VDict d)).
Proof. rewrite preorder_node. now left. Qed.

(** X9. On every tree of nodes no deeper than the recursion limit, each
    record of the top-level enumeration whose type is COMPONENT or
    COMPONENT_SET is also in the result of [list_all_components], as the
    same record without its page. *)
Theorem top_level_components_listed (root : value) (limit : nat) :
  is_node root = true -> (depth root <= limit)%nat ->
  exists frames components,
    list_top_level_frames root = Ok frames /\
    list_all_components limit root = Ok components /\
    forall fd, In (VDict fd) frames ->
               get fd "type" = VStr "COMPONENT" \/ get fd "type" = VStr "COMPONENT_SET" ->
               In (drop_page (VDict fd)) components.
Proof.
  intros Hr Hd.
  exists (top_level_frames root), (components_of (preorder root)).
  split; [now apply list_top_level_frames_nodes|].
  split; [exact (proj1 (walk_nodes limit root [] Hr) Hd)|].
  intros fd He Ht.
  apply top_level_frames_entries in He as (r & p & n & -> & Hp & Hn & _ & E).
  injection E as ->.
  change (get _ "type") with (get_default n "type" (VStr "")) in Ht.
  change (drop_page _) with (component_entry n).
  apply components_of_entries. exists n. split; [|split; [tauto | reflexivity]].
  apply (preorder_child r (VDict p) Hp).
  apply (preorder_child p (VDict n) Hn). apply preorder_self.
Qed.

Lemma top_level_components_listed_witness :
  exists frames components,
    list_top_level_frames mixed_doc = Ok frames /\
    list_all_components 4 mixed_doc = Ok components /\
    In (VDict [("id", VStr "1:6"); ("name", VStr "Buttons"); ("type", VStr "COMPONENT_SET")])
       components.
Proof.
  destruct (top_level_components_listed mixed_doc 4 eq_refl)
    as (frames & components & Hf & Hc & Hall);
    [apply Nat.leb_le; reflexivity|].
  exists frames, components. split; [exact Hf|]. split; [exact Hc|].
  apply (Hall [ ("id", VStr "1:6"); ("name", VStr "Buttons"); ("type", VStr "COMPONENT_SET");
                ("page", VStr "Page 1") ]); [|right; reflexivity].
  assert (E : Ok frames = Ok (top_level_frames mixed_doc))
    by (rewrite <- Hf; reflexivity).
  injection E as ->. simpl. tauto.
Defined.

(* ===================================================================== *)
(** * Style extraction: properties *)

Lemma dict_get_copy_key (k src dst : string) (node styles : dict value) :
  dict_get k (copy_key src dst node styles)
  = if String.eqb dst k
    then match dict_get src node with
         | Some v => Some v
         | None => dict_get k styles
         end
    else dict_get k styles.
Proof.
  unfold copy_key. destruct (dict_get src node) as [v|].
  - apply dict_get_set.
  - now destruct (String.eqb dst k).
Qed.

(** X10. [get_node_styles] copies exactly the groups that are present:
    [fills], [strokes] and [effects] under their own names, [style] as
    [textStyle], [absoluteBoundingBox] as [boundingBox], and a [layout]
    group exactly when [layoutMode] is present; the result has no other
    key, and no key for an absent group. *)
Theorem get_node_styles_groups (node : dict value) :
  dict_get "fills" (get_node_styles node) = dict_get "fills" node /\
  dict_get "strokes" (get_node_styles node) = dict_get "strokes" node /\
  dict_get "effects" (get_node_styles node) = dict_get "effects" node /\
  dict_get "textStyle" (get_node_styles node) = dict_get "style" node /\
  dict_get "boundingBox" (get_node_styles node) = dict_get "absoluteBoundingBox" node /\
  dict_get "layout" (get_node_styles node)
  = (if has_key node "layoutMode" then Some (layout_group node) else None) /\
  (forall k, In k ["fills"; "strokes"; "effects"; "textStyle"; "boundingBox"; "layout"]
             \/ dict_get k (get_node_styles node) = None).
Proof.
  unfold get_node_styles, layout_group.
  repeat split.
  1-6: destruct (has_key node "layoutMode");
       rewrite ?dict_get_set, !dict_get_copy_key; cbn [String.eqb Ascii.eqb Bool.eqb dict_get];
       repeat match goal with |- context [@dict_get value ?s ?n] =>
                destruct (@dict_get value s n) end; reflexivity.
  intros k.
  destruct (String.eqb "fills" k) eqn:E1; [apply String.eqb_eq in E1; subst; simpl; tauto|].
  destruct (String.eqb "strokes" k) eqn:E2; [apply String.eqb_eq in E2; subst; simpl; tauto|].
  destruct (String.eqb "effects" k) eqn:E3; [apply String.eqb_eq in E3; subst; simpl; tauto|].
  destruct (String.eqb "textStyle" k) eqn:E4; [apply String.eqb_eq in E4; subst; simpl; tauto|].
  destruct (String.eqb "boundingBox" k) eqn:E5; [apply String.eqb_eq in E5; subst; simpl; tauto|].
  destruct (String.eqb "layout" k) eqn:E6; [apply String.eqb_eq in E6; subst; simpl; tauto|].
  right.
  destruct (has_key node "layoutMode");
    rewrite ?dict_get_set, !dict_get_copy_key, ?E1, ?E2, ?E3, ?E4, ?E5, ?E6; reflexivity.
Qed.

(* ===================================================================== *)
(** * Node summary: further properties *)

Lemma add_size_exact (d s : dict value) :
  is_node (VDict d) = true ->
  add_size d s
  = Ok (match dict_get "absoluteBoundingBox" d with
        | Some (VDict box) => dict_set "size" (size_group box) s
        | _ => s
        end).
Proof.
  intros H. unfold add_size, has_key, index.
  destruct (dict_get "absoluteBoundingBox" d) as [x|] eqn:E; [|reflexivity].
  apply (is_node_field d _ _ H) in E.
  destruct x; try discriminate. reflexivity.
Qed.

(** X11. The summary of a node, with or without child inclusion, always
    carries the node's [id], [name] and [type] (the null value for a
    missing one); it carries a [size] of width and height exactly when the
    node has a bounding box, [characters] only for a text node, and,
    without child inclusion, no child field. *)
Theorem summarize_node_identity (d : dict value) (include_children : bool) :
  is_node (VDict d) = true ->
  exists s : dict value,
    summarize_node (VDict d) include_children = Ok (VDict s) /\
    dict_get "id" s = Some (get d "id") /\
    dict_get "name" s = Some (get d "name") /\
    dict_get "type" s = Some (get d "type") /\
    dict_get "size" s = match dict_get "absoluteBoundingBox" d with
                        | Some (VDict box) => Some (size_group box)
                        | _ => None
                        end /\
    (eq_str (get d "type") "TEXT" = false -> dict_get "characters" s = None) /\
    (include_children = false ->
     dict_get "childCount" s = None /\ dict_get "children" s = None /\
     dict_get "childrenTruncated" s = None).
Proof.
  intros H.
  assert (Hflat : exists sd,
            summarize_node_flat (VDict d) = Ok sd /\
            dict_get "id" sd = Some (get d "id") /\
            dict_get "name" sd = Some (get d "name") /\
            dict_get "type" sd = Some (get d "type") /\
            dict_get "size" sd = match dict_get "absoluteBoundingBox" d with
                                 | Some (VDict box) => Some (size_group box)
                                 | _ => None
                                 end /\
            (eq_str (get d "type") "TEXT" = false -> dict_get "characters" sd = None)).
  { unfold summarize_node_flat. rewrite (add_size_exact d _ H). cbn [bind].
    rewrite (add_characters_node d _ H).
    eexists. split; [reflexivity|].
    destruct (eq_str (get d "type") "TEXT");
      destruct (dict_get "absoluteBoundingBox" d) as [[| | | | | |box]|];
      rewrite ?dict_get_set; cbn [String.eqb Ascii.eqb Bool.eqb];
      rewrite ?dict_get_set; cbn [String.eqb Ascii.eqb Bool.eqb dict_get];
      repeat split; congruence. }
  destruct Hflat as (sd & E & Kid & Kname & Ktype & Ksize & Kchars).
  destruct (summarize_node_flat_node d H) as (sd' & E' & K1 & K2 & K3 & _).
  rewrite E in E'. injection E' as <-.
  destruct include_children.
  - destruct (summarize_node_true_node d H) as (sd' & cs & E' & _ & Es).
    rewrite E in E'. injection E' as <-.
    eexists. split; [exact Es|].
    destruct (10 <? List.length (children_of d))%nat;
      rewrite !dict_get_set_neq by reflexivity;
      repeat split; try assumption; discriminate.
  - exists sd. split; [rewrite summarize_node_false, E; reflexivity|].
    repeat split; assumption.
Qed.

Lemma summarize_node_identity_witness :
  exists s : dict value,
    summarize_node (VDict long_text) false = Ok (VDict s) /\
    dict_get "id" s = Some (VStr "7:1") /\
    dict_get "name" s = Some (VStr "Paragraph") /\
    dict_get "type" s = Some (VStr "TEXT") /\
    dict_get "size" s = None /\
    dict_get "children" s = None.
Proof.
  destruct (summarize_node_identity long_text false eq_refl)
    as (s & Hs & Hid & Hname & Htype & Hsize & _ & Hc).
  destruct (Hc eq_refl) as (_ & Hch & _).
  exists s. repeat split; assumption.
Defined.

Lemma summarize_node_flat_children (x y : value) (d : dict value) :
  summarize_node_flat (VDict (dict_set "children" x d))
  = summarize_node_flat (VDict (dict_set "children" y d)).
Proof.
  unfold summarize_node_flat, add_size, add_characters, get, get_default, has_key, index.
  now rewrite !dict_get_set_neq by reflexivity.
Qed.

Lemma firstn_exact {A : Type} (l t : list A) :
  firstn (List.length l) (l ++ t) = l.
Proof.
  rewrite firstn_app, Nat.sub_diag, firstn_all. simpl. apply app_nil_r.
Qed.

(** X12. The summary with child inclusion reads the first 10 children and
    the number of the others, nothing more: two nodes that differ only in
    the children after the tenth, and have equally many, have the same
    summary (or raise the same exception), whatever those children are. *)
Theorem summarize_node_first_ten (d : dict value) (l t1 t2 : list value) :
  List.length l = 10%nat -> List.length t1 = List.length t2 ->
  summarize_node (VDict (dict_set "children" (VList (l ++ t1)) d)) true
  = summarize_node (VDict (dict_set "children" (VList (l ++ t2)) d)) true.
Proof.
  intros Hl Ht. unfold summarize_node.
  rewrite (summarize_node_flat_children (VList (l ++ t1)) (VList (l ++ t2)) d).
  destruct (summarize_node_flat (VDict (dict_set "children" (VList (l ++ t2)) d)))
    as [sd|e]; [|reflexivity].
  cbn [bind py_get]. unfold get_default. rewrite !dict_get_set_eq.
  cbn [bind py_len py_slice_to py_iter].
  rewrite !length_app, Ht. rewrite <- Hl, !firstn_exact. reflexivity.
Qed.

Lemma summarize_node_first_ten_witness :
  summarize_node
    (VDict (dict_set "children"
              (VList (map numbered_frame (seq 1 10) ++ [VNone; VInt 7])) (frame_with 0))) true
  = summarize_node
      (VDict (dict_set "children"
                (VList (map numbered_frame (seq 1 10) ++ map numbered_frame (seq 11 2)))
                (frame_with 0))) true.
Proof.
  apply (summarize_node_first_ten (frame_with 0) (map numbered_frame (seq 1 10))
           [VNone; VInt 7] (map numbered_frame (seq 11 2))); reflexivity.
Defined.

(* ===================================================================== *)
(** * Name lookup tool: further properties *)

Lemma preorder_child_count (l : list value) (c : value) :
  In c l -> (List.length (preorder c) <= List.length (flat_map preorder l))%nat.
Proof.
  induction l as [|a l IH]; intros Hc; [contradiction|].
  simpl. rewrite length_app. destruct Hc as [->|Hc]; [lia|].
  specialize (IH Hc). lia.
Qed.

(** Every node met in document order in a tree of nodes is a node. *)
Lemma is_node_preorder (k : nat) :
  forall v, (node_count v <= k)%nat -> is_node v = true ->
            forall n, In n (preorder v) -> is_node n = true.
Proof.
  induction k as [|k IH]; intros v Hk Hv n Hn;
    destruct (is_node_dict _ Hv) as [d ->];
    unfold node_count in Hk; rewrite preorder_node in *; simpl in Hk; [lia|].
  destruct Hn as [<-|Hn]; [exact Hv|].
  apply in_flat_map in Hn as (c & Hc & Hn).
  destruct (is_node_children d Hv) as [_ Hch].
  rewrite forallb_forall in Hch.
  apply (IH c); [|now apply Hch | exact Hn].
  pose proof (preorder_child_count _ _ Hc). unfold node_count. lia.
Qed.

(** X13. When the first node in document order with the requested name is
    the record [d], the name lookup tool answers with a found record that
    holds the summary of [d] with child inclusion and the styles of [d];
    on a document of nodes it raises nothing. *)
Theorem find_frame_by_name_found
    (fuel : nat) (get_file : string -> result value)
    (file_url_or_key name file_key : string) (fetched d : dict value) :
  extract_file_key file_url_or_key = Ok file_key ->
  get_file file_key = Ok (VDict fetched) ->
  is_node (get_default fetched "document" (VDict [])) = true ->
  (node_count (get_default fetched "document" (VDict [])) <= fuel)%nat ->
  List.find (name_is (PyStr.lower (PyStr.strip name)))
            (preorder (get_default fetched "document" (VDict []))) = Some (VDict d) ->
  exists s : dict value,
    summarize_node (VDict d) true = Ok (VDict s) /\
    find_frame_by_name fuel get_file file_url_or_key name
    = Some (Ok (VDict [ ("found", VBool true);
                        ("node", VDict s);
                        ("styles", VDict (get_node_styles d)) ])).
Proof.
  intros Hkey Hfile Hdoc Hfuel Hfind.
  set (document := get_default fetched "document" (VDict [])) in *.
  assert (Hd : is_node (VDict d) = true).
  { apply find_some in Hfind as [Hin _].
    exact (is_node_preorder (node_count document) document (le_n _) Hdoc _ Hin). }
  destruct (summarize_node_true_node d Hd) as (sd & cs & _ & _ & Es).
  eexists. split; [exact Es|].
  unfold find_frame_by_name. rewrite Hkey. cbn [bind]. rewrite Hfile.
  cbn [bind py_get]. fold document.
  rewrite (find_node_by_name_preorder document name fuel Hdoc Hfuel), Hfind.
  now rewrite Es.
Qed.

Lemma find_frame_by_name_found_witness :
  exists s : dict value,
    summarize_node (VDict [ ("id", VStr "1:2"); ("name", VStr "  Header  ");
                            ("type", VStr "FRAME") ]) true = Ok (VDict s) /\
    find_frame_by_name 10 (fun _ => Ok (VDict [("document", header_doc)])) "AbC123" "HEADER"
    = Some (Ok (VDict [ ("found", VBool true); ("node", VDict s);
                        ("styles", VDict []) ])).
Proof.
  apply (find_frame_by_name_found 10 (fun _ => Ok (VDict [("document", header_doc)]))
           "AbC123" "HEADER" "AbC123" [("document", header_doc)]
           [ ("id", VStr "1:2"); ("name", VStr "  Header  "); ("type", VStr "FRAME") ]).
  - reflexivity.
  - reflexivity.
  - reflexivity.
  - apply Nat.leb_le. reflexivity.
  - reflexivity.
Defined.
